(** * Crop yield calculator (src/script.js): model and verification

    The script is one browser-side function, [predict], wired to a button.
    It reads text fields, validates them, evaluates one linear regression per
    crop, clamps, rounds, and writes either a result string or an error
    message back to the page.

    Modelling choices:
    - a JavaScript number is an IEEE 754 binary64 value: Rocq's primitive
      [float], whose operations are the same binary64 operations;
    - a JavaScript string is a [string], read as a sequence of code units
      below 256;
    - the page (the elements cached at the top of the script) is a record
      threaded through a small state-and-exception monad; dereferencing an
      element that [getElementById] did not find raises [TypeError];
    - the built-ins the script calls ([parseFloat], [isNaN], [Math.round],
      number-to-string conversion inside the template literal) are modelled
      from ECMA-262. *)

From Stdlib Require Import ZArith Lia Bool List Ascii String Floats.
From Stdlib Require Uint63.
Import ListNotations.

Set Warnings "-inexact-float".

Local Open Scope string_scope.
Local Open Scope Z_scope.

(** ** 1. Numbers: the Number value of a rational, [Math.round] *)

Module Number.

(** Nearest integer to [n / d] ([d > 0]), ties to the even integer. *)
Definition div_nearest_even (n d : Z) : Z :=
  let q := n / d in
  let r := n mod d in
  match 2 * r ?= d with
  | Lt => q
  | Gt => q + 1
  | Eq => if Z.even q then q else q + 1
  end.

(** [floor (log2 (n / d))] for positive [n] and [d]. *)
Definition floor_log2_ratio (n d : Z) : Z :=
  let k := Z.log2 n - Z.log2 d in
  let ge := if 0 <=? k then d * 2 ^ k <=? n else d <=? n * 2 ^ (- k) in
  if ge then k else k - 1.

(** The float with value [m * 2^e], for [0 < m <= 2^53] and an exponent in
    range: both the conversion of [m] and the scaling are exact. *)
Definition scale2 (m e : Z) : float :=
  SF2Prim (S754_finite false (Z.to_pos m) e).

(** ECMA-262 "the Number value for x", for the positive rational [n / d]:
    the binary64 value nearest to it, ties to even, overflowing to
    [+Infinity] and underflowing to [+0]. The quotient is scaled so that it
    has 53 significant bits, or so that its unit is the smallest subnormal
    [2^-1074], and is rounded once. *)
Definition of_ratio (n d : Z) : float :=
  let e := Z.max (floor_log2_ratio n d - 52) (-1074) in
  let q := if 0 <=? e then div_nearest_even n (d * 2 ^ e)
           else div_nearest_even (n * 2 ^ (- e)) d in
  if q =? 0 then 0%float
  else if (971 <? e) || ((e =? 971) && (2 ^ 53 <=? q)) then infinity
  else scale2 q e.

(** The Number value for [m * 10^e], [m >= 0]. *)
Definition of_decimal (m e : Z) : float :=
  if m =? 0 then 0%float
  else if 0 <=? e then of_ratio (m * 10 ^ e) 1
  else of_ratio m (10 ^ (- e)).

(** The Number value for an integer of magnitude at most [2^53]. *)
Definition of_Z (z : Z) : float :=
  match z with
  | Z0 => 0%float
  | Zpos _ => scale2 z 0
  | Zneg p => (- scale2 (Zpos p) 0)%float
  end.

(** [Math.round]: non-finite and integral values are returned unchanged;
    otherwise the nearest integer, the one closer to [+Infinity] on a tie,
    which is [floor (x + 1/2)] computed exactly; a result of zero keeps the
    sign of the argument. *)
Definition round (x : float) : float :=
  match Prim2SF x with
  | S754_finite s m e =>
      if 0 <=? e then x
      else
        let sm := if s then Zneg m else Zpos m in
        let r := (2 * sm + 2 ^ (- e)) / 2 ^ (- e + 1) in
        if r =? 0 then (if s then (-0)%float else 0%float) else of_Z r
  | _ => x
  end.

(** The global [isNaN], on a number. *)
Definition isNaN (x : float) : bool := is_nan x.

End Number.

(** ** 2. [parseFloat] *)

Module ParseFloat.

(** White space and line terminators that [TrimString] removes, among the
    code units below 256: TAB, LF, VT, FF, CR, SP and NBSP. *)
Definition is_white_space (c : ascii) : bool :=
  let n := nat_of_ascii c in
  ((9 <=? n) && (n <=? 13))%nat || (n =? 32)%nat || (n =? 160)%nat.

Fixpoint trim_start (s : string) : string :=
  match s with
  | String c s' => if is_white_space c then trim_start s' else s
  | EmptyString => s
  end.

Definition digit_of (c : ascii) : option Z :=
  let n := nat_of_ascii c in
  if ((48 <=? n) && (n <=? 57))%nat then Some (Z.of_nat n - 48) else None.

(** The longest run of decimal digits at the head of [s], and what follows. *)
Fixpoint digits (s : string) : list Z * string :=
  match s with
  | String c s' =>
      match digit_of c with
      | Some d => let (ds, r) := digits s' in (d :: ds, r)
      | None => ([], s)
      end
  | EmptyString => ([], s)
  end.

Definition digits_value (ds : list Z) : Z :=
  fold_left (fun acc d => 10 * acc + d) ds 0.

(** An optional sign: whether it is a minus, and the rest. *)
Definition sign (s : string) : bool * string :=
  match s with
  | String "-" s' => (true, s')
  | String "+" s' => (false, s')
  | _ => (false, s)
  end.

(** [ExponentPart], when present and complete; otherwise nothing is consumed
    and the exponent is 0. *)
Definition exponent_part (s : string) : Z :=
  match s with
  | String c s' =>
      if (Ascii.eqb c "e" || Ascii.eqb c "E")%bool then
        let (neg, s'') := sign s' in
        match digits s'' with
        | ([], _) => 0
        | (ds, _) => if neg then - digits_value ds else digits_value ds
        end
      else 0
  | EmptyString => 0
  end.

(** The mathematical value of the longest prefix that is a
    [StrUnsignedDecimalLiteral]. *)
Inductive literal :=
  | LitInfinity
  | LitDecimal (m : Z) (e : Z).   (* m * 10^e, m >= 0 *)

Definition unsigned_literal (s : string) : option literal :=
  if prefix "Infinity" s then Some LitInfinity
  else
    let (ip, r1) := digits s in
    match r1 with
    | String "." r2 =>
        let (fp, r3) := digits r2 in
        match ip, fp with
        | [], [] => None
        | _, _ =>
            Some (LitDecimal (digits_value (ip ++ fp))
                             (exponent_part r3 - Z.of_nat (List.length fp)))
        end
    | _ =>
        match ip with
        | [] => None
        | _ => Some (LitDecimal (digits_value ip) (exponent_part r1))
        end
    end.

Definition literal_value (l : literal) : float :=
  match l with
  | LitInfinity => infinity
  | LitDecimal m e => Number.of_decimal m e
  end.

(** [parseFloat(string)]: trim leading white space, take the longest prefix
    that is a [StrDecimalLiteral], and return its Number value; [NaN] when no
    prefix is one. A leading minus negates the value (so "-0" is [-0]). *)
Definition parseFloat (s : string) : float :=
  let (neg, r) := sign (trim_start s) in
  match unsigned_literal r with
  | None => nan
  | Some l => if neg then (- literal_value l)%float else literal_value l
  end.

End ParseFloat.

(** ** 3. Number-to-string conversion (ECMA-262 [Number::toString], radix 10) *)

Module NumberToString.

Fixpoint decimal_aux (fuel : nat) (z : Z) (acc : string) : string :=
  match fuel with
  | O => acc
  | S f =>
      let acc' := String (ascii_of_nat (48 + Z.to_nat (z mod 10))) acc in
      if z <? 10 then acc' else decimal_aux f (z / 10) acc'
  end.

(** Decimal digits of a non-negative integer. *)
Definition decimal (z : Z) : string :=
  decimal_aux (S (Z.to_nat (Z.log2 z))) z "".

Fixpoint zeros (n : nat) : string :=
  match n with
  | O => ""
  | S n' => String "0" (zeros n')
  end.

(** The integer [n] with [10^(n-1) <= vn / vd < 10^n], for a positive
    rational. [fuel] bounds the search; 400 covers every binary64 value. *)
Fixpoint magnitude_up (fuel : nat) (vn vd n : Z) : Z :=
  match fuel with
  | O => n
  | S f => if vn <? vd * 10 ^ n then n else magnitude_up f vn vd (n + 1)
  end.

Fixpoint magnitude_down (fuel : nat) (vn vd n : Z) : Z :=
  match fuel with
  | O => n
  | S f => if vd <=? vn * 10 ^ (1 - n) then n
           else magnitude_down f vn vd (n - 1)
  end.

Definition magnitude (vn vd : Z) : Z :=
  if vd <=? vn then magnitude_up 400 vn vd 1 else magnitude_down 400 vn vd 0.

Definition same (x y : float) : bool := PrimFloat.Leibniz.eqb x y.

(** For a given number of digits [k], the integer [s] and the exponent [n]
    such that [s * 10^(n-k)] converts back to [x], when there is one; of two
    such, the nearer to the value [vn / vd] of [x], then the even one. *)
Definition candidate (x : float) (vn vd n0 k : Z) : option (Z * Z) :=
  let p := n0 - k in
  let lo := if 0 <=? p then vn / (vd * 10 ^ p) else vn * 10 ^ (- p) / vd in
  let hi := lo + 1 in
  let ok_lo := (10 ^ (k - 1) <=? lo) && same (Number.of_decimal lo p) x in
  let ok_hi := same (Number.of_decimal hi p) x in
  let norm s := if s =? 10 ^ k then (10 ^ (k - 1), n0 + 1) else (s, n0) in
  (* compare 2 * v with (lo + hi) * 10^p *)
  let mid := if 0 <=? p then 2 * vn ?= (lo + hi) * 10 ^ p * vd
             else 2 * vn * 10 ^ (- p) ?= (lo + hi) * vd in
  match ok_lo, ok_hi with
  | true, true =>
      match mid with
      | Lt => Some (norm lo)
      | Gt => Some (norm hi)
      | Eq => Some (norm (if Z.even lo then lo else hi))
      end
  | true, false => Some (norm lo)
  | false, true => Some (norm hi)
  | false, false => None
  end.

(** The shortest digit string: try 1, 2, ... digits; 17 always suffice. *)
Fixpoint shortest (fuel : nat) (x : float) (vn vd n0 k : Z) : Z * Z :=
  match fuel with
  | O => (0, 0)
  | S f =>
      match candidate x vn vd n0 k with
      | Some sn => sn
      | None => shortest f x vn vd n0 (k + 1)
      end
  end.

Definition split_at (n : nat) (s : string) : string * string :=
  (substring 0 n s, substring n (String.length s - n) s).

(** Steps 6 to 10 of [Number::toString]: lay out the digits [ds] of [s] and
    the exponent [n]. *)
Definition layout (ds : string) (n : Z) : string :=
  let k := Z.of_nat (String.length ds) in
  if (k <=? n) && (n <=? 21) then ds ++ zeros (Z.to_nat (n - k))
  else if (0 <? n) && (n <=? 21) then
    let (a, b) := split_at (Z.to_nat n) ds in a ++ "." ++ b
  else if (-6 <? n) && (n <=? 0) then "0." ++ zeros (Z.to_nat (- n)) ++ ds
  else
    let e := n - 1 in
    let es := (if e <? 0 then "-" else "+") ++ decimal (Z.abs e) in
    if k =? 1 then ds ++ "e" ++ es
    else let (a, b) := split_at 1 ds in a ++ "." ++ b ++ "e" ++ es.

Definition positive_to_string (x : float) (m : positive) (e : Z) : string :=
  let vn := if 0 <=? e then Zpos m * 2 ^ e else Zpos m in
  let vd := if 0 <=? e then 1 else 2 ^ (- e) in
  let (s, n) := shortest 17 x vn vd (magnitude vn vd) 1 in
  layout (decimal s) n.

Definition toString (x : float) : string :=
  match Prim2SF x with
  | S754_nan => "NaN"
  | S754_zero _ => "0"
  | S754_infinity s => if s then "-Infinity" else "Infinity"
  | S754_finite s m e =>
      if s then "-" ++ positive_to_string (- x)%float m e
      else positive_to_string x m e
  end.

End NumberToString.

(** ** 4. The page and the effects of the script *)

(** The [errorMsg] element: its text and [style.display]. *)
Record ErrorElement := mkError {
  textContent : string;
  display : string
}.

(** The elements cached by the script (section 1 of the source). An element
    that [getElementById] did not find is [None]; for an input or select
    element, [Some v] holds its current [value]. [cropSelect] is always
    there: the script registers [predict] only after
    [cropSelect.addEventListener] succeeded. *)
Record Page := mkPage {
  cropSelect : string;
  errorMsg : option ErrorElement;
  resultInput : option string;
  tmArea : option string;
  tmRainfall : option string;
  tmFert : option string;
  managementSelect : option string;
  gRainSep : option string;
  gRainOct : option string;
  gRainNov : option string;
  gArea : option string;
  gFert : option string
}.

Definition set_errorMsg (e : ErrorElement) (p : Page) : Page :=
  mkPage (cropSelect p) (Some e) (resultInput p) (tmArea p) (tmRainfall p)
         (tmFert p) (managementSelect p) (gRainSep p) (gRainOct p)
         (gRainNov p) (gArea p) (gFert p).

Definition set_resultInput (v : string) (p : Page) : Page :=
  mkPage (cropSelect p) (errorMsg p) (Some v) (tmArea p) (tmRainfall p)
         (tmFert p) (managementSelect p) (gRainSep p) (gRainOct p)
         (gRainNov p) (gArea p) (gFert p).

(** How a piece of script ends: normally, with a value and the page as it
    left it, or by throwing a [TypeError] (a property access on [null]). *)
Inductive completion (A : Type) : Type :=
  | Normal (a : A) (p : Page)
  | TypeError.
Arguments Normal {A} a p.
Arguments TypeError {A}.

Definition Dom (A : Type) : Type := Page -> completion A.

Definition ret {A} (a : A) : Dom A := fun p => Normal a p.

Definition bind {A B} (m : Dom A) (k : A -> Dom B) : Dom B :=
  fun p => match m p with
           | Normal a p' => k a p'
           | TypeError => TypeError
           end.

Declare Scope dom_scope.
Delimit Scope dom_scope with dom.
Notation "x <- m ;; k" := (bind m (fun x => k))
  (at level 61, m at next level, right associativity) : dom_scope.
Notation "m ;; k" := (bind m (fun _ => k))
  (at level 61, right associativity) : dom_scope.
Local Open Scope dom_scope.

(** Reading a cached element reference (never fails: it may be [null]). *)
Definition element {A} (field : Page -> A) : Dom A := fun p => Normal (field p) p.

(** [el.value] for a select element [el]. *)
Definition value_of (el : option string) : Dom string :=
  match el with
  | Some v => ret v
  | None => fun _ => TypeError
  end.

(** [errorMsg.textContent = msg]. *)
Definition set_textContent (msg : string) : Dom unit := fun p =>
  match errorMsg p with
  | Some e => Normal tt (set_errorMsg (mkError msg (display e)) p)
  | None => TypeError
  end.

(** [errorMsg.style.display = d]. *)
Definition set_display (d : string) : Dom unit := fun p =>
  match errorMsg p with
  | Some e => Normal tt (set_errorMsg (mkError (textContent e) d) p)
  | None => TypeError
  end.

(** [resultInput.value = v]. *)
Definition set_result (v : string) : Dom unit := fun p =>
  match resultInput p with
  | Some _ => Normal tt (set_resultInput v p)
  | None => TypeError
  end.

(** ** 5. The script: utility functions *)

(** A value that is [null] or a number, as [parseNumber] returns it. *)
Definition nullable := option float.

(** [ToNumber]: [null] converts to [+0]. *)
Definition ToNumber (v : nullable) : float :=
  match v with
  | Some x => x
  | None => 0%float
  end.

(** [v === null]. *)
Definition is_null (v : nullable) : bool :=
  match v with
  | Some _ => false
  | None => true
  end.

(** [input?.value ?? ''] *)
Definition value_or_empty (input : option string) : string :=
  match input with
  | Some v => v
  | None => ""
  end.

Definition parseNumber (input : option string) : nullable :=
  let val := ParseFloat.parseFloat (value_or_empty input) in
  if Number.isNaN val then None else Some val.

Definition showError (msg : string) : Dom unit :=
  set_textContent msg ;;
  set_display "block" ;;
  set_result "".

Definition clearErrorAndResult : Dom unit :=
  set_display "none" ;;
  set_textContent "" ;;
  set_result "".

(** ** 6. The script: [predict] *)

Local Open Scope float_scope.

(** [parseNumber(el)] on a cached element. *)
Definition parseNumber_of (field : Page -> option string) : Dom nullable :=
  input <- element field ;;
  ret (parseNumber input).

(** [!s] for a string: only the empty string is falsy. *)
Definition falsy (s : string) : bool := String.eqb s "".

(** How the [switch] statement is left: by one of its [return]s, or by a
    [break] with the local variables [predictedYield] and [label]. *)
Inductive flow :=
  | Returned
  | Break (predictedYield : float) (label : string).

(** [showError(msg); return;] *)
Definition fail (msg : string) : Dom flow :=
  showError msg ;; ret Returned.

(** The Tur formula, lines 126-129. *)
Definition tur_formula (area rain fert : float) : float :=
  -3.32843850766629 +
  (0.00459239788361382 * rain) +
  (4.33370044211268 * area) +
  (0.0763918341341603 * fert).

(** The base Maize formula, lines 161-164. *)
Definition baseMaize (areaM rainM fertM : float) : float :=
  -23.81399768 +
  (0.039441256 * rainM) +
  (13.03528484 * areaM) +
  (0.031329566 * fertM).

(** Lines 166-174: the factor and the label chosen from [mgmt]. *)
Definition management (mgmt : string) : float * string :=
  if String.eqb mgmt "poor" then (0.75, " (Maize, Poor management)"%string)
  else (1.0, " (Maize, Good management)"%string).

(** The Gram formula, lines 202-208. *)
Definition gram_formula (areaG rSep rOct rNov fertG : float) : float :=
  57.91029391 +
  (9.450850118 * areaG) +
  (-0.577080551 * rSep) +
  (0.069920447 * rOct) +
  (0.278021178 * rNov) +
  (-0.006839212 * fertG).

(** [case "tur"], lines 106-133. *)
Definition case_tur : Dom flow :=
  area <- parseNumber_of tmArea ;;
  rain <- parseNumber_of tmRainfall ;;
  fert <- parseNumber_of tmFert ;;
  if is_null area || (ToNumber area <=? 0) then
    fail "Enter a valid positive area for Tur."
  else if is_null rain || (ToNumber rain <? 0) then
    fail "Enter rainfall (mm) for Tur."
  else if is_null fert || (ToNumber fert <? 0) then
    fail "Enter fertilizers (kg) for Tur."
  else
    ret (Break (tur_formula (ToNumber area) (ToNumber rain) (ToNumber fert))
               " (Tur)").

(** [case "maize"], lines 135-178. *)
Definition case_maize : Dom flow :=
  areaM <- parseNumber_of tmArea ;;
  rainM <- parseNumber_of tmRainfall ;;
  fertM <- parseNumber_of tmFert ;;
  el <- element managementSelect ;;
  mgmt <- value_of el ;;
  if is_null areaM || (ToNumber areaM <=? 0) then
    fail "Enter a valid positive area for Maize."
  else if is_null rainM || (ToNumber rainM <? 0) then
    fail "Enter rainfall (mm) for Maize."
  else if is_null fertM || (ToNumber fertM <? 0) then
    fail "Enter fertilizers (kg) for Maize."
  else if falsy mgmt then
    fail "Select quality of management for Maize."
  else
    let base := baseMaize (ToNumber areaM) (ToNumber rainM) (ToNumber fertM) in
    let (mgmtFactor, label) := management mgmt in
    ret (Break (base * mgmtFactor) label).

(** [case "gram"], lines 180-212. *)
Definition case_gram : Dom flow :=
  rSep <- parseNumber_of gRainSep ;;
  rOct <- parseNumber_of gRainOct ;;
  rNov <- parseNumber_of gRainNov ;;
  areaG <- parseNumber_of gArea ;;
  fertG <- parseNumber_of gFert ;;
  if is_null rSep || (ToNumber rSep <? 0) || is_null rOct || (ToNumber rOct <? 0)
     || is_null rNov || (ToNumber rNov <? 0) then
    fail "Enter rainfall for September, October, and November for Gram."
  else if is_null areaG || (ToNumber areaG <=? 0) then
    fail "Enter a valid positive area for Gram."
  else if is_null fertG || (ToNumber fertG <? 0) then
    fail "Enter fertilizers (kg) for Gram."
  else
    ret (Break (gram_formula (ToNumber areaG) (ToNumber rSep) (ToNumber rOct)
                             (ToNumber rNov) (ToNumber fertG))
               " (Gram)").

(** [switch (crop)], lines 105-217. *)
Definition switch_crop (crop : string) : Dom flow :=
  if String.eqb crop "tur" then case_tur
  else if String.eqb crop "maize" then case_maize
  else if String.eqb crop "gram" then case_gram
  else fail "No formula defined for this crop.".

(** Lines 220-222: [if (predictedYield < 0) predictedYield = 0]. *)
Definition clamp (predictedYield : float) : float :=
  if predictedYield <? 0 then 0 else predictedYield.

(** Line 225: [Math.round(predictedYield * 100) / 100]. *)
Definition round2 (predictedYield : float) : float :=
  Number.round (predictedYield * 100) / 100.

(** The template literal of line 226. *)
Definition format (predictedYield : float) (label : string) : string :=
  (NumberToString.toString predictedYield ++ " quintals (approx.)" ++ label)%string.

Definition predict : Dom unit :=
  clearErrorAndResult ;;
  crop <- element cropSelect ;;
  if falsy crop then showError "Please select a crop."
  else
    fl <- switch_crop crop ;;
    match fl with
    | Returned => ret tt
    | Break predictedYield label =>
        set_result (format (round2 (clamp predictedYield)) label)
    end.

(** ** 7. Validation as data, and what [predict] leaves on the page *)

(** The two conditions the script tests on a parsed field. *)
Definition not_positive (v : nullable) : bool := is_null v || (ToNumber v <=? 0).
Definition not_nonneg (v : nullable) : bool := is_null v || (ToNumber v <? 0).

(** A check: whether it fails on this page, and the message it reports. *)
Definition check : Type := bool * string.

Fixpoint first_failure (cs : list check) : option string :=
  match cs with
  | [] => None
  | (failed, msg) :: cs' => if failed then Some msg else first_failure cs'
  end.

Section Checks.
Variable p : Page.

Definition area_tm := parseNumber (tmArea p).
Definition rain_tm := parseNumber (tmRainfall p).
Definition fert_tm := parseNumber (tmFert p).
Definition mgmt := value_or_empty (managementSelect p).
Definition rain_sep := parseNumber (gRainSep p).
Definition rain_oct := parseNumber (gRainOct p).
Definition rain_nov := parseNumber (gRainNov p).
Definition area_g := parseNumber (gArea p).
Definition fert_g := parseNumber (gFert p).

Definition check_area_tur : check :=
  (not_positive area_tm, "Enter a valid positive area for Tur."%string).
Definition check_rain_tur : check :=
  (not_nonneg rain_tm, "Enter rainfall (mm) for Tur."%string).
Definition check_fert_tur : check :=
  (not_nonneg fert_tm, "Enter fertilizers (kg) for Tur."%string).

Definition check_area_maize : check :=
  (not_positive area_tm, "Enter a valid positive area for Maize."%string).
Definition check_rain_maize : check :=
  (not_nonneg rain_tm, "Enter rainfall (mm) for Maize."%string).
Definition check_fert_maize : check :=
  (not_nonneg fert_tm, "Enter fertilizers (kg) for Maize."%string).
Definition check_management : check :=
  (falsy mgmt, "Select quality of management for Maize."%string).

Definition check_rain_gram : check :=
  (not_nonneg rain_sep || not_nonneg rain_oct || not_nonneg rain_nov,
   "Enter rainfall for September, October, and November for Gram."%string).
Definition check_area_gram : check :=
  (not_positive area_g, "Enter a valid positive area for Gram."%string).
Definition check_fert_gram : check :=
  (not_nonneg fert_g, "Enter fertilizers (kg) for Gram."%string).

Definition check_crop_selected : check :=
  (falsy (cropSelect p), "Please select a crop."%string).
Definition unknown_crop : check :=
  (true, "No formula defined for this crop."%string).

(** The checks in the order in which [predict] makes them. *)
Definition checks : list check :=
  check_crop_selected ::
  (if String.eqb (cropSelect p) "tur" then
     [check_area_tur; check_rain_tur; check_fert_tur]
   else if String.eqb (cropSelect p) "maize" then
     [check_area_maize; check_rain_maize; check_fert_maize; check_management]
   else if String.eqb (cropSelect p) "gram" then
     [check_rain_gram; check_area_gram; check_fert_gram]
   else [unknown_crop]).

(** The checks in the order of the specification (section 4.2): crop
    identifier, area, rainfall, fertilizer, and management for Maize. *)
Definition checks_in_spec_order : list check :=
  check_crop_selected ::
  (if String.eqb (cropSelect p) "tur" then
     [check_area_tur; check_rain_tur; check_fert_tur]
   else if String.eqb (cropSelect p) "maize" then
     [check_area_maize; check_rain_maize; check_fert_maize; check_management]
   else if String.eqb (cropSelect p) "gram" then
     [check_area_gram; check_rain_gram; check_fert_gram]
   else [unknown_crop]).

(** The value of [predictedYield] and of [label] when the [switch] is left
    by a [break]. *)
Definition yield_at_break : float :=
  if String.eqb (cropSelect p) "tur" then
    tur_formula (ToNumber area_tm) (ToNumber rain_tm) (ToNumber fert_tm)
  else if String.eqb (cropSelect p) "maize" then
    baseMaize (ToNumber area_tm) (ToNumber rain_tm) (ToNumber fert_tm)
    * fst (management mgmt)
  else
    gram_formula (ToNumber area_g) (ToNumber rain_sep) (ToNumber rain_oct)
                 (ToNumber rain_nov) (ToNumber fert_g).

Definition label_at_break : string :=
  if String.eqb (cropSelect p) "tur" then " (Tur)"
  else if String.eqb (cropSelect p) "maize" then snd (management mgmt)
  else " (Gram)".

(** The page after [showError(msg)]. *)
Definition error_page (msg : string) : Page :=
  set_resultInput "" (set_errorMsg (mkError msg "block") p).

(** The page after a result was written: no error shown. *)
Definition result_page (v : string) : Page :=
  set_resultInput v (set_errorMsg (mkError "" "none") p).

(** The elements that [predict] dereferences without a guard are there. *)
Definition wired : Prop :=
  errorMsg p <> None /\ resultInput p <> None /\ managementSelect p <> None.

End Checks.

(** What the page shows. *)
Definition error_text (p : Page) : string :=
  match errorMsg p with
  | Some e => textContent e
  | None => ""
  end.

Definition result_text (p : Page) : string := value_or_empty (resultInput p).

(** A page with every element present, given the crop, the management
    selection and the text of the fields (Tur/Maize fields, then Gram fields). *)
Definition page (crop m : string) (a r f : string) (s o n ga gf : string) : Page :=
  mkPage crop (Some (mkError "" "none")) (Some "")
         (Some a) (Some r) (Some f) (Some m)
         (Some s) (Some o) (Some n) (Some ga) (Some gf).

Definition tur_page (a r f : string) : Page := page "tur" "" a r f "" "" "" "" "".
Definition maize_page (m a r f : string) : Page := page "maize" m a r f "" "" "" "" "".
Definition gram_page (s o n ga gf : string) : Page := page "gram" "" "" "" "" s o n ga gf.

(** The page after [clearErrorAndResult()]. *)
Definition cleared (p : Page) : Page := result_page p "".

(** The number that a successful [predict] converts to text. *)
Definition shown_value (p : Page) : float := round2 (clamp (yield_at_break p)).

(** Selecting another management option. *)
Definition set_management (m : string) (p : Page) : Page :=
  mkPage (cropSelect p) (errorMsg p) (resultInput p) (tmArea p) (tmRainfall p)
         (tmFert p) (Some m) (gRainSep p) (gRainOct p)
         (gRainNov p) (gArea p) (gFert p).

(** The area, rainfall and fertilizer fields of the selected crop. *)
Definition area_field (p : Page) : nullable :=
  if String.eqb (cropSelect p) "gram" then area_g p else area_tm p.

Definition rain_fields (p : Page) : list nullable :=
  if String.eqb (cropSelect p) "gram" then [rain_sep p; rain_oct p; rain_nov p]
  else [rain_tm p].

Definition fert_field (p : Page) : nullable :=
  if String.eqb (cropSelect p) "gram" then fert_g p else fert_tm p.

(** A parsed field equal to zero ([x == 0], which holds of [+0] and [-0]). *)
Definition is_zero_value (v : nullable) : bool :=
  match v with
  | Some x => (x =? 0)
  | None => false
  end.

(** ** 8. The specification's formulas and contracts *)

(** Section 4.3: [result = intercept + sum of coefficient_i * input_i], the
    terms added from left to right. *)
Definition linear (intercept : float) (terms : list (float * float)) : float :=
  fold_left (fun acc t => acc + fst t * snd t) terms intercept.

(** Section 4.3: the management factor, 1.0 for Good and 0.75 for Poor. The
    specification's Good and Poor are the option values "good" and "poor" of
    the script (line 140), as its Tur, Maize and Gram are "tur", "maize" and
    "gram". *)
Definition managementFactor (m : string) : option float :=
  if String.eqb m "good" then Some 1.0
  else if String.eqb m "poor" then Some 0.75
  else None.

(** Section 4.3: the regression of the selected crop on the parsed fields. *)
Definition regression (p : Page) : option float :=
  if String.eqb (cropSelect p) "tur" then
    Some (linear (-3.32843850766629)
            [(0.00459239788361382, ToNumber (rain_tm p));
             (4.33370044211268, ToNumber (area_tm p));
             (0.0763918341341603, ToNumber (fert_tm p))])
  else if String.eqb (cropSelect p) "maize" then
    option_map
      (fun factor =>
         linear (-23.81399768)
           [(0.039441256, ToNumber (rain_tm p));
            (13.03528484, ToNumber (area_tm p));
            (0.031329566, ToNumber (fert_tm p))] * factor)
      (managementFactor (mgmt p))
  else if String.eqb (cropSelect p) "gram" then
    Some (linear 57.91029391
            [(9.450850118, ToNumber (area_g p));
             (-0.577080551, ToNumber (rain_sep p));
             (0.069920447, ToNumber (rain_oct p));
             (0.278021178, ToNumber (rain_nov p));
             (-0.006839212, ToNumber (fert_g p))])
  else None.

(** Section 4.1, as written: the parsing step yields a finite number or the
    invalid marker. *)
Definition finite_or_null (v : nullable) : Prop :=
  match v with
  | Some x => is_finite x = true
  | None => True
  end.

(** Whether the text, after leading white space and an optional sign, starts
    a decimal literal: a digit, a dot followed by a digit, or "Infinity". *)
Definition begins_literal (s : string) : bool :=
  let (_, r) := ParseFloat.sign (ParseFloat.trim_start s) in
  prefix "Infinity" r ||
  match r with
  | String c r' =>
      match ParseFloat.digit_of c, r' with
      | Some _, _ => true
      | None, String d _ =>
          Ascii.eqb c "." &&
          match ParseFloat.digit_of d with Some _ => true | None => false end
      | None, EmptyString => false
      end
  | EmptyString => false
  end.

(** The first failing check of [cs] decides what [predict] does on [p]: its
    message alone is reported, and when none fails a result is written. *)
Definition first_failure_reported (cs : list check) (p : Page) : Prop :=
  match first_failure cs with
  | Some msg => predict p = Normal tt (error_page p msg)
  | None => exists v, predict p = Normal tt (result_page p v)
  end.

(** Section 8, as written: on inputs that pass validation the value is
    at least 0. *)
Definition value_is_nonneg (p : Page) : Prop :=
  first_failure (checks p) = None -> (0 <=? shown_value p) = true.

(** Section 4.2 item 5, as written: a management value outside
    {good, poor} is an error. *)
Definition management_validated (p : Page) : Prop :=
  mgmt p <> "good"%string -> mgmt p <> "poor"%string ->
  exists msg, predict p = Normal tt (error_page p msg).

(** Zero, a positive number or [+Infinity]: the binary64 values [x] with
    [0 <= x]. *)
Definition sf_nonneg (f : spec_float) : bool :=
  match f with
  | S754_zero _ => true
  | S754_infinity s => negb s
  | S754_finite s _ _ => negb s
  | S754_nan => false
  end.

Definition nonneg (x : float) : Prop := (0 <=? x) = true.

(** A binary64 value that is not NaN and carries the sign [sx]. *)
Definition sf_signed (sx : bool) (f : spec_float) : bool :=
  match f with
  | S754_zero s | S754_infinity s | S754_finite s _ _ => Bool.eqb s sx
  | S754_nan => false
  end.

(** ** Example pages *)

(** The Gram example of the specification's section 8. *)
Definition gram_example : Page := gram_page "100" "50" "20" "2" "30".

(** The Tur example of section 8. *)
Definition tur_example : Page := tur_page "1" "500" "50".

(** A Maize page, with the management option left to choose. *)
Definition maize_example (m : string) : Page := maize_page m "1" "500" "50".

(** Gram with nothing filled in. *)
Definition gram_blank : Page := gram_page "" "" "" "" "".

(** Gram with two months of unbounded rainfall. *)
Definition gram_infinite_rain : Page := gram_page "Infinity" "Infinity" "0" "1" "0".

(** A page whose numeric input elements are all missing. *)
Definition page_without_inputs (crop : string) : Page :=
  mkPage crop (Some (mkError "" "none")) (Some "")
         None None None (Some "good") None None None None None.

(** ** The crop sections and the [change] listener *)

(** The three section elements: [Some d] holds the element's
    [style.display], [None] stands for an element that was not found. *)
Record Sections := mkSections {
  turMaizeInputs : option string;
  maizeManagement : option string;
  gramInputs : option string
}.

(** [turMaizeInputs.style.display = d], and likewise for the other two; the
    assignment throws when the element is missing. *)
Definition set_turMaizeInputs (d : string) (s : Sections) : option Sections :=
  match turMaizeInputs s with
  | Some _ => Some (mkSections (Some d) (maizeManagement s) (gramInputs s))
  | None => None
  end.

Definition set_maizeManagement (d : string) (s : Sections) : option Sections :=
  match maizeManagement s with
  | Some _ => Some (mkSections (turMaizeInputs s) (Some d) (gramInputs s))
  | None => None
  end.

Definition set_gramInputs (d : string) (s : Sections) : option Sections :=
  match gramInputs s with
  | Some _ => Some (mkSections (turMaizeInputs s) (maizeManagement s) (Some d))
  | None => None
  end.

(** One statement after another, stopping at the first that throws. *)
Definition and_then (f g : Sections -> option Sections) (s : Sections) :
  option Sections :=
  match f s with
  | Some s' => g s'
  | None => None
  end.

(** [if (c) { f }] *)
Definition when (c : bool) (f : Sections -> option Sections) (s : Sections) :
  option Sections :=
  if c then f s else Some s.

(** How the listener ends: with the page and the sections as it left them,
    or by throwing. *)
Inductive outcome :=
  | Done (p : Page) (s : Sections)
  | Thrown.

(** The [change] listener of the crop select, lines 68-87. [cropSelect p] is
    the option just selected. *)
Definition onCropChange (p : Page) (s : Sections) : outcome :=
  match clearErrorAndResult p with
  | TypeError => Thrown
  | Normal _ p' =>
      let crop := cropSelect p' in
      match
        and_then (set_turMaizeInputs "none")
       (and_then (set_maizeManagement "none")
       (and_then (set_gramInputs "none")
       (and_then (when (String.eqb crop "tur" || String.eqb crop "maize")
                       (set_turMaizeInputs "block"))
       (and_then (when (String.eqb crop "maize") (set_maizeManagement "block"))
                 (when (String.eqb crop "gram") (set_gramInputs "block"))))))
        s
      with
      | Some s' => Done p' s'
      | None => Thrown
      end
  end.

(** A section is visible. *)
Definition visible (d : option string) : bool :=
  match d with
  | Some v => String.eqb v "block"
  | None => false
  end.

(** ** Further vocabulary for the properties of [predict] *)

(** The elements that [predict] dereferences on this page are there: the
    error and result elements, and the management select when the crop is
    Maize. *)
Definition ready (p : Page) : Prop :=
  errorMsg p <> None /\ resultInput p <> None /\
  (cropSelect p = "maize"%string -> managementSelect p <> None).

(** The page [predict] leaves. *)
Definition final_page (p : Page) : Page :=
  match first_failure (checks p) with
  | Some msg => error_page p msg
  | None => result_page p (format (shown_value p) (label_at_break p))
  end.

(** Two pages hold the same crop, management selection and field elements;
    they may differ in what the error and result elements show. *)
Definition same_inputs (p q : Page) : Prop :=
  cropSelect p = cropSelect q /\
  tmArea p = tmArea q /\ tmRainfall p = tmRainfall q /\ tmFert p = tmFert q /\
  managementSelect p = managementSelect q /\
  gRainSep p = gRainSep q /\ gRainOct p = gRainOct q /\
  gRainNov p = gRainNov q /\ gArea p = gArea q /\ gFert p = gFert q.

(** Two pages agree on the crop and on the fields of that crop: the three
    shared fields for Tur, these and the management for Maize, the five Gram
    fields for Gram, nothing more for another crop. *)
Definition same_crop_fields (p q : Page) : Prop :=
  cropSelect p = cropSelect q /\
  (cropSelect p = "tur"%string \/ cropSelect p = "maize"%string ->
   tmArea p = tmArea q /\ tmRainfall p = tmRainfall q /\ tmFert p = tmFert q) /\
  (cropSelect p = "maize"%string -> mgmt p = mgmt q) /\
  (cropSelect p = "gram"%string ->
   gRainSep p = gRainSep q /\ gRainOct p = gRainOct q /\
   gRainNov p = gRainNov q /\ gArea p = gArea q /\ gFert p = gFert q).

(** A string of decimal digits. *)
Fixpoint all_digits (s : string) : bool :=
  match s with
  | EmptyString => true
  | String c s' =>
      match ParseFloat.digit_of c with
      | Some _ => all_digits s'
      | None => false
      end
  end.

(** A string of white space. *)
Fixpoint all_white_space (s : string) : bool :=
  match s with
  | EmptyString => true
  | String c s' => ParseFloat.is_white_space c && all_white_space s'
  end.

(** Text that cannot continue an integer: empty, or starting with a
    character other than a digit, a dot, "e" and "E". *)
Definition ends_number (t : string) : bool :=
  match t with
  | EmptyString => true
  | String c _ =>
      match ParseFloat.digit_of c with
      | Some _ => false
      | None => negb (Ascii.eqb c "." || Ascii.eqb c "e" || Ascii.eqb c "E")
      end
  end.

(** * Properties *)

(** ** 9. Facts about binary64 arithmetic *)

Module FloatFacts.

Local Open Scope Z_scope.

Lemma leb_zero (x : float) : (0 <=? x)%float = sf_nonneg (Prim2SF x).
Proof.
  rewrite FloatAxioms.leb_spec.
  change (Prim2SF 0) with (S754_zero false).
  destruct (Prim2SF x) as [s|s| |s m e]; try destruct s; reflexivity.
Qed.

Lemma ltb_zero (x : float) :
  (x <? 0)%float =
  match Prim2SF x with
  | S754_infinity s | S754_finite s _ _ => s
  | _ => false
  end.
Proof.
  rewrite FloatAxioms.ltb_spec.
  change (Prim2SF 0) with (S754_zero false).
  destruct (Prim2SF x) as [s|s| |s m e]; try destruct s; reflexivity.
Qed.

Lemma is_nan_spec (x : float) :
  is_nan x = match Prim2SF x with S754_nan => true | _ => false end.
Proof.
  unfold is_nan. rewrite FloatAxioms.eqb_spec. unfold SFeqb.
  destruct (Prim2SF x) as [s|s| |s m e]; try destruct s; cbn; try reflexivity.
  - rewrite Z.compare_refl, Pos.compare_cont_refl. reflexivity.
  - rewrite Z.compare_refl, Pos.compare_cont_refl. reflexivity.
Qed.

(** *** Signs through rounding *)

Lemma shr_1_nonneg mrs : 0 <= shr_m mrs -> 0 <= shr_m (shr_1 mrs).
Proof.
  destruct mrs as [m r s]. cbn.
  destruct m as [|[p|p|]|[p|p|]]; cbn; lia.
Qed.

Lemma iter_shr_1_nonneg n : forall mrs,
  0 <= shr_m mrs -> 0 <= shr_m (iter_pos shr_1 n mrs).
Proof.
  induction n as [n IH|n IH|]; intros mrs H; cbn.
  - apply IH, IH, shr_1_nonneg, H.
  - apply IH, IH, H.
  - apply shr_1_nonneg, H.
Qed.

Lemma shr_fexp_nonneg m e l :
  0 <= m -> 0 <= shr_m (fst (shr_fexp prec emax m e l)).
Proof.
  intros H. unfold shr_fexp, shr.
  assert (H0 : 0 <= shr_m (shr_record_of_loc m l)) by (destruct l as [|[]]; exact H).
  destruct (fexp prec emax (Zdigits2 m + e) - e); cbn [fst]; auto.
  apply iter_shr_1_nonneg, H0.
Qed.

Lemma round_nearest_even_nonneg m l : 0 <= m -> 0 <= round_nearest_even m l.
Proof.
  intros H. destruct l as [|[]]; cbn; try lia. destruct (Z.even m); lia.
Qed.

Lemma binary_round_aux_nonneg m e l :
  0 <= m -> sf_nonneg (binary_round_aux prec emax false m e l) = true.
Proof.
  intros H. unfold binary_round_aux.
  pose proof (shr_fexp_nonneg m e l H) as H1.
  destruct (shr_fexp prec emax m e l) as [mrs' e']. cbn [fst] in H1.
  pose proof (shr_fexp_nonneg _ e' loc_Exact
                (round_nearest_even_nonneg _ (loc_of_shr_record mrs') H1)) as H2.
  destruct (shr_fexp prec emax _ e' loc_Exact) as [mrs'' e'']. cbn [fst] in H2.
  destruct (shr_m mrs'') as [|q|q]; try reflexivity; [|lia].
  destruct (e'' <=? emax - prec); reflexivity.
Qed.

Lemma binary_round_nonneg m e :
  sf_nonneg (binary_round prec emax false m e) = true.
Proof.
  unfold binary_round. destruct (shl_align _ _ _) as [mz ez].
  apply binary_round_aux_nonneg. lia.
Qed.

(** *** Non-negative values stay non-negative *)

Lemma nonneg_mul_finite (x y : float) my ey :
  Prim2SF y = S754_finite false my ey -> nonneg x -> nonneg (x * y).
Proof.
  unfold nonneg. rewrite !leb_zero, FloatAxioms.mul_spec. intros ->.
  unfold SF64mul, SFmul.
  destruct (Prim2SF x) as [[]|[]| |[] mx ex];
    cbn [sf_nonneg negb xorb]; try congruence; intros _.
  apply binary_round_aux_nonneg. lia.
Qed.

Lemma div_core_nonneg mx ex my ey :
  0 <= fst (fst (SFdiv_core_binary prec emax (Zpos mx) ex (Zpos my) ey)).
Proof.
  unfold SFdiv_core_binary.
  set (s := _ - _ - _). 
  set (m' := match s with Zpos _ => Z.shiftl (Zpos mx) s | Z0 => Zpos mx | Zneg _ => 0 end).
  assert (Hm : 0 <= m').
  { subst m'. destruct s; try lia. apply Z.shiftl_nonneg. lia. }
  pose proof (Z.div_pos m' (Zpos my) Hm ltac:(lia)) as Hq.
  unfold Z.div in Hq.
  destruct (Z.div_eucl m' (Zpos my)) as [q r]. exact Hq.
Qed.

Lemma nonneg_div_finite (x y : float) my ey :
  Prim2SF y = S754_finite false my ey -> nonneg x -> nonneg (x / y).
Proof.
  unfold nonneg. rewrite !leb_zero, FloatAxioms.div_spec. intros ->.
  unfold SF64div, SFdiv.
  destruct (Prim2SF x) as [[]|[]| |[] mx ex];
    cbn [sf_nonneg negb xorb]; try congruence; intros _.
  pose proof (div_core_nonneg mx ex my ey) as H.
  destruct (SFdiv_core_binary prec emax (Zpos mx) ex (Zpos my) ey) as [[mz ez] lz].
  apply binary_round_aux_nonneg. exact H.
Qed.

Lemma nonneg_scale2 (m e : Z) : nonneg (Number.scale2 m e).
Proof.
  unfold nonneg, Number.scale2, SF2Prim.
  rewrite leb_zero, Z_ldexp_spec, FloatAxioms.of_uint63_spec.
  set (n := Uint63Axioms.to_Z _).
  assert (Hn : 0 <= n) by (subst n; apply Uint63.to_Z_bounded).
  unfold binary_normalize.
  destruct n as [|q|q]; [reflexivity| |lia].
  pose proof (binary_round_nonneg q 0) as H.
  destruct (binary_round prec emax false q 0) as [[]|[]| |[] mz ez];
    cbn [sf_nonneg negb] in H |- *; try congruence; try reflexivity.
  apply binary_round_nonneg.
Qed.

Lemma nonneg_round (x : float) : nonneg x -> nonneg (Number.round x).
Proof.
  intros H. unfold Number.round.
  pose proof H as H'. unfold nonneg in H'. rewrite leb_zero in H'.
  destruct (Prim2SF x) as [s|s| |s m e]; try exact H.
  destruct s; [discriminate|].
  destruct (0 <=? e) eqn:He; [exact H|]. apply Z.leb_gt in He.
  cbv zeta. cbv iota.
  set (r := _ / _).
  assert (Hr : 0 <= r).
  { subst r. apply Z.div_pos; [|apply Z.pow_pos_nonneg; lia].
    assert (0 <= 2 ^ (- e)) by (apply Z.pow_nonneg; lia). lia. }
  destruct (r =? 0) eqn:E; [reflexivity|].
  unfold Number.of_Z. destruct r; [reflexivity| |lia].
  apply nonneg_scale2.
Qed.


(** *** Multiplication: commutative, and exact by 1 *)

Lemma mul_comm (x y : float) : (x * y = y * x)%float.
Proof.
  apply Prim2SF_inj. rewrite !FloatAxioms.mul_spec. unfold SF64mul, SFmul.
  destruct (Prim2SF x) as [sx|sx| |sx mx ex], (Prim2SF y) as [sy|sy| |sy my ey];
    try reflexivity; rewrite (xorb_comm sx sy); try reflexivity.
  rewrite (Pos.mul_comm mx my), (Z.add_comm ex ey). reflexivity.
Qed.



Lemma shr_fexp_exact (m : positive) (e : Z) :
  fexp prec emax (Zpos (digits2_pos m) + e) = e ->
  shr_fexp prec emax (Zpos (4503599627370496 * m)) (e + -52) loc_Exact
  = (Build_shr_record (Zpos m) false false, e).
Proof.
  intros V. cbn [Pos.mul]. unfold shr_fexp. cbn [Zdigits2 digits2_pos].
  rewrite !Pos2Z.inj_succ.
  match goal with |- context [fexp prec emax ?a] =>
    replace a with (Zpos (digits2_pos m) + e) by lia end.
  rewrite V. replace (e - (e + -52)) with 52 by lia.
  unfold shr. cbn [iter_pos shr_1 shr_record_of_loc orb].
  f_equal. lia.
Qed.

Lemma shr_fexp_canonical (m : positive) (e : Z) :
  fexp prec emax (Zpos (digits2_pos m) + e) = e ->
  shr_fexp prec emax (Zpos m) e loc_Exact
  = (Build_shr_record (Zpos m) false false, e).
Proof.
  intros V. unfold shr_fexp. cbn [Zdigits2]. rewrite V, Z.sub_diag. reflexivity.
Qed.

Lemma mul_1_r (x : float) : (x * 1 = x)%float.
Proof.
  apply Prim2SF_inj. rewrite FloatAxioms.mul_spec.
  change (Prim2SF 1) with (S754_finite false 4503599627370496 (-52)).
  pose proof (Prim2SF_valid x) as V.
  destruct (Prim2SF x) as [s|s| |s m e]; unfold SF64mul, SFmul;
    rewrite ?xorb_false_r; try reflexivity.
  cbn [valid_binary] in V. unfold bounded, canonical_mantissa in V.
  apply andb_true_iff in V. destruct V as [V1 V2].
  apply Z.eqb_eq in V1.
  rewrite Pos.mul_comm.
  unfold binary_round_aux.
  rewrite (shr_fexp_exact m e V1).
  cbn [shr_m loc_of_shr_record round_nearest_even].
  rewrite (shr_fexp_canonical m e V1).
  cbn [shr_m]. rewrite V2. reflexivity.
Qed.
Lemma binary_round_aux_signed sx m e l :
  0 <= m -> sf_signed sx (binary_round_aux prec emax sx m e l) = true.
Proof.
  intros H. unfold binary_round_aux.
  pose proof (shr_fexp_nonneg m e l H) as H1.
  destruct (shr_fexp prec emax m e l) as [mrs' e']. cbn [fst] in H1.
  pose proof (shr_fexp_nonneg _ e' loc_Exact
                (round_nearest_even_nonneg _ (loc_of_shr_record mrs') H1)) as H2.
  destruct (shr_fexp prec emax _ e' loc_Exact) as [mrs'' e'']. cbn [fst] in H2.
  destruct (shr_m mrs'') as [|q|q]; [| |lia].
  - apply Bool.eqb_reflx.
  - destruct (e'' <=? emax - prec); apply Bool.eqb_reflx.
Qed.

Lemma nonneg_not_below_zero (x : float) : nonneg x -> (x <? 0)%float = false.
Proof.
  unfold nonneg. rewrite leb_zero, ltb_zero.
  destruct (Prim2SF x) as [s|[]| |[] m e]; cbn; congruence.
Qed.

Lemma nonneg_eqb_refl (x : float) : nonneg x -> (x =? x)%float = true.
Proof.
  intros H. unfold nonneg in H. rewrite leb_zero in H.
  assert (N : is_nan x = false).
  { rewrite is_nan_spec. destruct (Prim2SF x); cbn in H; congruence. }
  unfold is_nan in N. apply negb_false_iff in N. exact N.
Qed.

Lemma nonneg_not_nan (x : float) : nonneg x -> is_nan x = false.
Proof.
  unfold nonneg. rewrite leb_zero, is_nan_spec.
  destruct (Prim2SF x); cbn; congruence.
Qed.

Lemma is_nan_opp (x : float) : is_nan (- x) = is_nan x.
Proof.
  rewrite !is_nan_spec, FloatAxioms.opp_spec.
  destruct (Prim2SF x); reflexivity.
Qed.
End FloatFacts.

(** Closed goals, conjunct by conjunct, by evaluation. *)
Ltac by_computation :=
  repeat match goal with |- _ /\ _ => split end; vm_compute; reflexivity.

(** ** 10. The built-ins on known values *)

Example parseFloat_examples :
  map ParseFloat.parseFloat
      ["0"; "-0"; "12.5"; "  3.5e2x"; "12abc"; ".5"; "5."; "1e+2"; "0x10";
       "1.7976931348623157e308"; "1.7976931348623159e308"; "5e-324";
       "2e-324"; "0.1"; "9007199254740993"; "Infinity"; "-Infinity"]%string
  = [0; -0; 12.5; 350; 12; 0.5; 5; 100; 0;
     0x1.fffffffffffffp+1023; infinity; 0x1p-1074;
     0; 0x1.999999999999ap-4; 9007199254740992; infinity; neg_infinity].
Proof. vm_compute. reflexivity. Qed.

Example parseFloat_NaN_examples :
  map (fun s => is_nan (ParseFloat.parseFloat s))
      [""; "abc"; "."; ".e1"; "-"; "+"; "e5"; "infinity"; "--1"; "- 1"]%string
  = [true; true; true; true; true; true; true; true; true; true].
Proof. vm_compute. reflexivity. Qed.

Example round_examples :
  map Number.round [2.5; -2.5; 0.4; 0.5; 0.49999999999999994; 133.5; 7.12; 1e300;
                    4503599627370495.5; infinity]
  = [3; -2; 0; 1; 0; 134; 7; 1e300; 4503599627370496; infinity] /\
  map Prim2SF (map Number.round [-0.4; -0.5; -0; nan])
  = [S754_zero true; S754_zero true; S754_zero true; S754_nan].
Proof. by_computation. Qed.

Example toString_examples :
  map NumberToString.toString
      [0; -0; 1; 7.12; 7.1; 0.1; 0.3; 0.30000000000000004; 100; 1e21; 1e20;
       0.000001; 0.0000001; 1.5e-7; -2.5; 123456789012345680000;
       9007199254740993; nan; infinity; neg_infinity]
  = ["0"; "0"; "1"; "7.12"; "7.1"; "0.1"; "0.3"; "0.30000000000000004"; "100";
     "1e+21"; "100000000000000000000"; "0.000001"; "1e-7"; "1.5e-7"; "-2.5";
     "123456789012345680000"; "9007199254740992"; "NaN"; "Infinity";
     "-Infinity"]%string.
Proof. vm_compute. reflexivity. Qed.

(** ** 11. What [switch] and [predict] do on a wired page *)

Ltac run := repeat first
  [ progress cbn [bind ret element value_of parseNumber_of fail showError
                  clearErrorAndResult set_textContent set_display set_result
                  errorMsg resultInput tmArea tmRainfall tmFert managementSelect
                  gRainSep gRainOct gRainNov gArea gFert cropSelect
                  set_errorMsg set_resultInput textContent display
                  first_failure fst snd value_or_empty] ].

Lemma switch_run (p : Page) :
  wired p -> falsy (cropSelect p) = false ->
  switch_crop (cropSelect p) p =
  match first_failure (checks p) with
  | Some msg => Normal Returned (error_page p msg)
  | None => Normal (Break (yield_at_break p) (label_at_break p)) p
  end.
Proof.
  destruct p as [crop [e|] [r|] a rn f [m|] s o n ga gf];
    intros (He & Hr & Hm) Hc; cbn in He, Hr, Hm; try congruence; clear He Hr Hm.
  unfold checks, check_crop_selected, switch_crop, yield_at_break,
    label_at_break, error_page.
  cbn [cropSelect] in *. rewrite Hc. cbn [first_failure].
  destruct (String.eqb crop "tur").
  - unfold case_tur, check_area_tur, check_rain_tur, check_fert_tur, area_tm,
      rain_tm, fert_tm, not_positive, not_nonneg.
    run.
    destruct (is_null (parseNumber a) || _); [reflexivity|].
    destruct (is_null (parseNumber rn) || _); [reflexivity|].
    destruct (is_null (parseNumber f) || _); reflexivity.
  - destruct (String.eqb crop "maize").
    + unfold case_maize, check_area_maize, check_rain_maize, check_fert_maize,
        check_management, area_tm, rain_tm, fert_tm, mgmt, not_positive,
        not_nonneg.
      run.
      destruct (is_null (parseNumber a) || _); [reflexivity|].
      destruct (is_null (parseNumber rn) || _); [reflexivity|].
      destruct (is_null (parseNumber f) || _); [reflexivity|].
      destruct (falsy m); [reflexivity|].
      destruct (management m); reflexivity.
    + destruct (String.eqb crop "gram").
      * unfold case_gram, check_area_gram, check_rain_gram, check_fert_gram,
          area_g, rain_sep, rain_oct, rain_nov, fert_g, not_positive,
          not_nonneg.
        run. rewrite !orb_assoc.
        destruct (_ || (ToNumber (parseNumber n) <? 0)); [reflexivity|].
        destruct (is_null (parseNumber ga) || _); [reflexivity|].
        destruct (is_null (parseNumber gf) || _); reflexivity.
      * reflexivity.
Qed.

Lemma clear_run (p : Page) :
  wired p -> clearErrorAndResult p = Normal tt (cleared p).
Proof.
  destruct p as [crop [e|] [r|] a rn f [m|] s o n ga gf];
    intros (He & Hr & Hm); cbn in He, Hr, Hm; try congruence.
  reflexivity.
Qed.

Lemma cleared_wired (p : Page) : wired p -> wired (cleared p).
Proof.
  destruct p; unfold wired; cbn. intuition congruence.
Qed.

Lemma predict_run (p : Page) :
  wired p ->
  predict p =
  Normal tt
    match first_failure (checks p) with
    | Some msg => error_page p msg
    | None => result_page p (format (round2 (clamp (yield_at_break p)))
                                    (label_at_break p))
    end.
Proof.
  intros W. unfold predict, bind at 1. rewrite (clear_run p W).
  unfold bind at 1. cbn [element].
  change (cropSelect (cleared p)) with (cropSelect p).
  unfold checks at 1, check_crop_selected. cbn [first_failure].
  destruct (falsy (cropSelect p)) eqn:Hc.
  - destruct p as [crop [e|] [r|] a rn f [m|] s o n ga gf];
      destruct W as (He & Hr & Hm); cbn in He, Hr, Hm; try congruence.
    reflexivity.
  - unfold bind.
    change (cropSelect p) with (cropSelect (cleared p)) at 1.
    rewrite (switch_run (cleared p) (cleared_wired p W) Hc).
    change (checks (cleared p)) with (checks p).
    unfold checks, check_crop_selected. rewrite Hc. cbn [first_failure].
    match goal with |- context [first_failure ?l] => destruct (first_failure l) end.
    + destruct p; reflexivity.
    + destruct p as [crop [e|] [r|] a rn f [m|] s o n ga gf];
        destruct W as (He & Hr & Hm); cbn in He, Hr, Hm; try congruence.
      reflexivity.
Qed.

Lemma passes_crop_selected (p : Page) :
  first_failure (checks p) = None -> falsy (cropSelect p) = false.
Proof.
  unfold checks, check_crop_selected. cbn [first_failure].
  destruct (falsy (cropSelect p)); [intros [=] | reflexivity].
Qed.

Lemma predict_passes (p : Page) :
  wired p -> first_failure (checks p) = None ->
  predict p = Normal tt (result_page p (format (shown_value p) (label_at_break p))).
Proof.
  intros W H. rewrite (predict_run p W), H. reflexivity.
Qed.

Lemma predict_fails (p : Page) (msg : string) :
  wired p -> first_failure (checks p) = Some msg ->
  predict p = Normal tt (error_page p msg).
Proof.
  intros W H. rewrite (predict_run p W), H. reflexivity.
Qed.

(** ** 12. Formula evaluation *)

Lemma regression_yield (p : Page) (y : float) :
  first_failure (checks p) = None ->
  regression p = Some y -> y = yield_at_break p.
Proof.
  unfold regression, yield_at_break, checks, check_crop_selected.
  cbn [first_failure].
  destruct (falsy (cropSelect p)); [intros [=]|].
  destruct (String.eqb (cropSelect p) "tur").
  - intros _ [= <-]. reflexivity.
  - destruct (String.eqb (cropSelect p) "maize").
    + intros _. unfold managementFactor, management.
      destruct (String.eqb (mgmt p) "good") eqn:G.
      * apply String.eqb_eq in G. rewrite G. intros [= <-]. reflexivity.
      * destruct (String.eqb (mgmt p) "poor"); [|intros [=]].
        intros [= <-]. reflexivity.
    + destruct (String.eqb (cropSelect p) "gram").
      * intros _ [= <-]. reflexivity.
      * intros _ [=].
Qed.

(** C1: on every page that passes validation, the value of [predictedYield]
    when the [switch] is left, before clamping, is the regression of the
    selected crop of section 4.3: intercept plus the sum of coefficient times
    input with the literal coefficients, added in the stated order, and for
    Maize multiplied by the management factor; [predict] shows that value
    clamped and rounded. The only validated pages on which section 4.3 names
    no factor are the Maize pages whose management selection is neither
    "good" nor "poor": there the Maize regression is multiplied by 1.0, the
    factor of Good. *)
Theorem predicted_yield_is_regression (p : Page) :
  wired p ->
  first_failure (checks p) = None ->
  exists y : float,
    switch_crop (cropSelect p) p = Normal (Break y (label_at_break p)) p /\
    predict p
    = Normal tt (result_page p (format (round2 (clamp y)) (label_at_break p))) /\
    match regression p with
    | Some r => y = r
    | None =>
        cropSelect p = "maize"%string /\
        mgmt p <> "good"%string /\ mgmt p <> "poor"%string /\
        y = linear (-23.81399768)
              [(0.039441256, ToNumber (rain_tm p));
               (13.03528484, ToNumber (area_tm p));
               (0.031329566, ToNumber (fert_tm p))] * 1.0
    end.
Proof.
  intros W H. exists (yield_at_break p).
  split.
  { rewrite (switch_run p W (passes_crop_selected p H)), H. reflexivity. }
  split; [apply predict_passes; assumption|].
  destruct (regression p) as [r|] eqn:R.
  { symmetry. exact (regression_yield p r H R). }
  revert H R.
  unfold regression, yield_at_break, checks, check_crop_selected, management,
    managementFactor.
  cbn [first_failure].
  destruct (falsy (cropSelect p)); [intros [=]|].
  destruct (String.eqb (cropSelect p) "tur"); [intros _ [=]|].
  destruct (String.eqb (cropSelect p) "maize") eqn:M.
  - apply String.eqb_eq in M. intros _.
    destruct (String.eqb (mgmt p) "good") eqn:G; [intros [=]|].
    destruct (String.eqb (mgmt p) "poor") eqn:P; [intros [=]|].
    intros _. apply String.eqb_neq in G, P. repeat split; assumption.
  - destruct (String.eqb (cropSelect p) "gram"); [intros _ [=]|].
    cbn [first_failure unknown_crop]. intros [=].
Qed.

Lemma predicted_yield_is_regression_witness :
  exists y : float,
    switch_crop (cropSelect gram_example) gram_example
    = Normal (Break y (label_at_break gram_example)) gram_example /\
    predict gram_example
    = Normal tt (result_page gram_example
                   (format (round2 (clamp y)) (label_at_break gram_example))) /\
    match regression gram_example with
    | Some r => y = r
    | None =>
        cropSelect gram_example = "maize"%string /\
        mgmt gram_example <> "good"%string /\
        mgmt gram_example <> "poor"%string /\
        y = linear (-23.81399768)
              [(0.039441256, ToNumber (rain_tm gram_example));
               (13.03528484, ToNumber (area_tm gram_example));
               (0.031329566, ToNumber (fert_tm gram_example))] * 1.0
    end.
Proof.
  apply (predicted_yield_is_regression gram_example).
  - repeat split; discriminate.
  - vm_compute. reflexivity.
Defined.

(** The regression values at the examples: Gram and Tur of section 8, and
    Maize with the three kinds of management selection. *)
Example regression_examples :
  regression gram_example = Some 27.955208596000002 /\
  switch_crop "gram" gram_example
  = Normal (Break 27.955208596000002 " (Gram)") gram_example /\
  regression tur_example = Some 7.1210525829613154 /\
  switch_crop "tur" tur_example
  = Normal (Break 7.1210525829613154 " (Tur)") tur_example /\
  regression (maize_example "poor") = Some 7.8812950950000005 /\
  regression (maize_example "good") = Some 10.50839346 /\
  regression (maize_example "excellent") = None /\
  switch_crop "maize" (maize_example "excellent")
  = Normal (Break 10.50839346 " (Maize, Good management)")
           (maize_example "excellent").
Proof. by_computation. Qed.

(** The two worked examples of section 8. *)
Example tur_example_output :
  predict tur_example
  = Normal tt (result_page tur_example "7.12 quintals (approx.) (Tur)").
Proof. vm_compute. reflexivity. Qed.

Example gram_example_output :
  predict gram_example
  = Normal tt (result_page gram_example "27.96 quintals (approx.) (Gram)").
Proof. vm_compute. reflexivity. Qed.

(** The coefficient literals denote the same binary64 values whether read by
    Rocq or converted by the rule for numeric literals modelled in
    [Number.of_decimal]. *)
Example literals_agree :
  map ParseFloat.parseFloat
      ["3.32843850766629"; "0.00459239788361382"; "4.33370044211268";
       "0.0763918341341603"; "23.81399768"; "0.039441256"; "13.03528484";
       "0.031329566"; "57.91029391"; "9.450850118"; "0.577080551";
       "0.069920447"; "0.278021178"; "0.006839212"; "0.75"; "100"]%string
  = [3.32843850766629; 0.00459239788361382; 4.33370044211268;
     0.0763918341341603; 23.81399768; 0.039441256; 13.03528484;
     0.031329566; 57.91029391; 9.450850118; 0.577080551;
     0.069920447; 0.278021178; 0.006839212; 0.75; 100].
Proof. vm_compute. reflexivity. Qed.

(** ** 13. Output *)

(** C9: on every successful prediction the result field holds exactly
    "<value> quintals (approx.)<label>", where <value> is the text of the
    clamped and rounded yield, that is of [Math.round(c * 100) / 100] for
    [c] the value [y] of [predictedYield] at the end of the [switch] with a
    value below 0 replaced by 0, and <label> is " (Tur)", " (Maize, Poor
    management)", " (Maize, Good management)" or " (Gram)" according to the
    crop and, for Maize, to the management selection; no error is shown. *)
Theorem result_string_format (p : Page) :
  wired p ->
  first_failure (checks p) = None ->
  exists (label : string) (p' : Page) (y c v : float),
    switch_crop (cropSelect p) p = Normal (Break y label) p /\
    c = (if y <? 0 then 0 else y) /\
    (c <? 0) = false /\
    v = Number.round (c * 100) / 100 /\
    predict p = Normal tt p' /\
    result_text p'
    = (NumberToString.toString v ++ " quintals (approx.)" ++ label)%string /\
    error_text p' = ""%string /\
    errorMsg p' = Some (mkError "" "none") /\
    ((cropSelect p = "tur" /\ label = " (Tur)") \/
     (cropSelect p = "maize" /\ mgmt p = "poor" /\ label = " (Maize, Poor management)") \/
     (cropSelect p = "maize" /\ mgmt p <> "poor" /\ label = " (Maize, Good management)") \/
     (cropSelect p = "gram" /\ label = " (Gram)"))%string.
Proof.
  intros W H. exists (label_at_break p).
  exists (result_page p (format (shown_value p) (label_at_break p))).
  exists (yield_at_break p), (clamp (yield_at_break p)), (shown_value p).
  split.
  { rewrite (switch_run p W (passes_crop_selected p H)), H. reflexivity. }
  split; [reflexivity|].
  split.
  { unfold clamp. destruct (yield_at_break p <? 0) eqn:E; [reflexivity | exact E]. }
  split; [reflexivity|].
  split; [exact (predict_passes p W H)|].
  split; [reflexivity|]. split; [reflexivity|]. split; [reflexivity|].
  revert H. unfold checks, check_crop_selected, label_at_break, management.
  cbn [first_failure].
  destruct (falsy (cropSelect p)); [intros [=]|].
  destruct (String.eqb (cropSelect p) "tur") eqn:T.
  { intros _. left. apply String.eqb_eq in T. auto. }
  destruct (String.eqb (cropSelect p) "maize") eqn:M.
  { intros _. apply String.eqb_eq in M. right.
    destruct (String.eqb (mgmt p) "poor") eqn:P.
    - left. apply String.eqb_eq in P. auto.
    - right; left. apply String.eqb_neq in P. auto. }
  destruct (String.eqb (cropSelect p) "gram") eqn:G.
  { intros _. apply String.eqb_eq in G. auto. }
  cbn [first_failure unknown_crop]. intros [=].
Qed.

Lemma result_string_format_witness :
  exists (label : string) (p' : Page) (y c v : float),
    switch_crop (cropSelect (maize_example "poor")) (maize_example "poor")
    = Normal (Break y label) (maize_example "poor") /\
    c = (if y <? 0 then 0 else y) /\
    (c <? 0) = false /\
    v = Number.round (c * 100) / 100 /\
    predict (maize_example "poor") = Normal tt p' /\
    result_text p'
    = (NumberToString.toString v ++ " quintals (approx.)" ++ label)%string /\
    error_text p' = ""%string /\
    errorMsg p' = Some (mkError "" "none") /\
    ((cropSelect (maize_example "poor") = "tur" /\ label = " (Tur)") \/
     (cropSelect (maize_example "poor") = "maize" /\
      mgmt (maize_example "poor") = "poor" /\ label = " (Maize, Poor management)") \/
     (cropSelect (maize_example "poor") = "maize" /\
      mgmt (maize_example "poor") <> "poor" /\ label = " (Maize, Good management)") \/
     (cropSelect (maize_example "poor") = "gram" /\ label = " (Gram)"))%string.
Proof.
  apply (result_string_format (maize_example "poor")).
  - repeat split; discriminate.
  - vm_compute. reflexivity.
Defined.

Example maize_outputs :
  predict (maize_example "poor")
  = Normal tt (result_page (maize_example "poor")
                 "7.88 quintals (approx.) (Maize, Poor management)") /\
  predict (maize_example "good")
  = Normal tt (result_page (maize_example "good")
                 "10.51 quintals (approx.) (Maize, Good management)").
Proof. by_computation. Qed.

(** ** 14. Validation *)

Lemma first_failure_reported_run (p : Page) :
  wired p -> first_failure_reported (checks p) p.
Proof.
  intros W. unfold first_failure_reported.
  destruct (first_failure (checks p)) as [msg|] eqn:H.
  - exact (predict_fails p msg W H).
  - eexists. exact (predict_passes p W H).
Qed.

(** C3 (as the specification states it, refuted): for Gram the checks are
    not made in the order crop, area, rainfall, fertilizer. With every Gram
    field empty the specification's order reports the area, while [predict]
    reports the rainfall. *)
Lemma gram_blank_reports_rainfall :
  ~ first_failure_reported (checks_in_spec_order gram_blank) gram_blank.
Proof.
  unfold first_failure_reported.
  assert (S : first_failure (checks_in_spec_order gram_blank)
              = Some "Enter a valid positive area for Gram."%string)
    by (vm_compute; reflexivity).
  assert (C : predict gram_blank
              = Normal tt (error_page gram_blank
                  "Enter rainfall for September, October, and November for Gram."))
    by (vm_compute; reflexivity).
  rewrite S, C. intros [=].
Qed.

(** C3 (amended): on every page the checks are made in one fixed order per
    crop and the first that fails alone decides the single message shown (no
    message from a later failing check is added); when none fails a result is
    written. The order is: crop selected; then for Tur area, rainfall,
    fertilizer; for Maize area, rainfall, fertilizer, management; for Gram
    rainfall (the three months as one check), area, fertilizer; any other
    crop has no formula. For every crop but Gram this is the order of the
    specification. *)
Theorem first_failing_check_reported (p : Page) :
  wired p ->
  first_failure_reported (checks p) p /\
  (cropSelect p <> "gram"%string -> checks p = checks_in_spec_order p) /\
  (cropSelect p = "tur"%string ->
   checks p = [check_crop_selected p; check_area_tur p; check_rain_tur p;
               check_fert_tur p]) /\
  (cropSelect p = "maize"%string ->
   checks p = [check_crop_selected p; check_area_maize p; check_rain_maize p;
               check_fert_maize p; check_management p]) /\
  (cropSelect p = "gram"%string ->
   checks p = [check_crop_selected p; check_rain_gram p; check_area_gram p;
               check_fert_gram p]).
Proof.
  intros W. split; [exact (first_failure_reported_run p W)|].
  unfold checks, checks_in_spec_order. repeat split.
  - intros G. apply String.eqb_neq in G. rewrite G. reflexivity.
  - intros ->. reflexivity.
  - intros ->. reflexivity.
  - intros ->. reflexivity.
Qed.

Lemma first_failing_check_reported_witness :
  first_failure_reported (checks gram_blank) gram_blank /\
  (cropSelect gram_blank <> "gram"%string ->
   checks gram_blank = checks_in_spec_order gram_blank) /\
  (cropSelect gram_blank = "tur"%string ->
   checks gram_blank
   = [check_crop_selected gram_blank; check_area_tur gram_blank;
      check_rain_tur gram_blank; check_fert_tur gram_blank]) /\
  (cropSelect gram_blank = "maize"%string ->
   checks gram_blank
   = [check_crop_selected gram_blank; check_area_maize gram_blank;
      check_rain_maize gram_blank; check_fert_maize gram_blank;
      check_management gram_blank]) /\
  (cropSelect gram_blank = "gram"%string ->
   checks gram_blank
   = [check_crop_selected gram_blank; check_rain_gram gram_blank;
      check_area_gram gram_blank; check_fert_gram gram_blank]).
Proof.
  apply (first_failing_check_reported gram_blank).
  repeat split; discriminate.
Defined.

Lemma first_failure_exists (cs : list check) :
  existsb fst cs = true ->
  exists msg, first_failure cs = Some msg /\ In msg (map snd cs).
Proof.
  induction cs as [|[failed msg] cs IH]; cbn; [intros [=]|].
  destruct failed; cbn.
  - intros _. exists msg. auto.
  - intros H. destruct (IH H) as (m & Hm & Hin). exists m. auto.
Qed.

Lemma messages_nonempty (p : Page) (msg : string) :
  In msg (map snd (checks p)) -> msg <> ""%string.
Proof.
  unfold checks.
  destruct (String.eqb (cropSelect p) "tur");
    [|destruct (String.eqb (cropSelect p) "maize");
      [|destruct (String.eqb (cropSelect p) "gram")]];
    cbn; intros H; repeat (destruct H as [<-|H]; [discriminate|]); destruct H.
Qed.

(** C8: whenever some validation check fails -- a missing or unknown crop
    included -- [predict] completes, shows one message (that of the first
    failing check, never empty) with the error element made visible, leaves
    the result field empty and changes nothing else on the page: no number is
    computed or shown. *)
Theorem validation_failure_shows_error_only (p : Page) :
  wired p ->
  existsb fst (checks p) = true ->
  exists (msg : string) (p' : Page),
    predict p = Normal tt p' /\
    p' = error_page p msg /\
    first_failure (checks p) = Some msg /\
    msg <> ""%string /\
    errorMsg p' = Some (mkError msg "block") /\
    result_text p' = ""%string /\
    (cropSelect p = ""%string -> msg = "Please select a crop."%string) /\
    (cropSelect p <> ""%string -> cropSelect p <> "tur"%string ->
     cropSelect p <> "maize"%string -> cropSelect p <> "gram"%string ->
     msg = "No formula defined for this crop."%string).
Proof.
  intros W H.
  destruct (first_failure_exists (checks p) H) as (msg & Hf & Hin).
  exists msg, (error_page p msg).
  split; [exact (predict_fails p msg W Hf)|].
  split; [reflexivity|]. split; [exact Hf|].
  split; [exact (messages_nonempty p msg Hin)|].
  split; [reflexivity|]. split; [reflexivity|].
  split.
  - intros E. revert Hf. unfold checks, check_crop_selected, falsy.
    rewrite E. cbn. congruence.
  - intros E T M G. revert Hf. unfold checks, check_crop_selected, falsy.
    apply String.eqb_neq in E, T, M, G. rewrite E, T, M, G.
    cbn. congruence.
Qed.

Lemma validation_failure_shows_error_only_witness :
  exists (msg : string) (p' : Page),
    predict (page "wheat" "" "1" "2" "3" "" "" "" "" "") = Normal tt p' /\
    p' = error_page (page "wheat" "" "1" "2" "3" "" "" "" "" "") msg /\
    first_failure (checks (page "wheat" "" "1" "2" "3" "" "" "" "" "")) = Some msg /\
    msg <> ""%string /\
    errorMsg p' = Some (mkError msg "block") /\
    result_text p' = ""%string /\
    (cropSelect (page "wheat" "" "1" "2" "3" "" "" "" "" "") = ""%string ->
     msg = "Please select a crop."%string) /\
    (cropSelect (page "wheat" "" "1" "2" "3" "" "" "" "" "") <> ""%string ->
     cropSelect (page "wheat" "" "1" "2" "3" "" "" "" "" "") <> "tur"%string ->
     cropSelect (page "wheat" "" "1" "2" "3" "" "" "" "" "") <> "maize"%string ->
     cropSelect (page "wheat" "" "1" "2" "3" "" "" "" "" "") <> "gram"%string ->
     msg = "No formula defined for this crop."%string).
Proof.
  apply (validation_failure_shows_error_only (page "wheat" "" "1" "2" "3" "" "" "" "" "")).
  - repeat split; discriminate.
  - vm_compute. reflexivity.
Defined.

Example error_outputs :
  predict (page "wheat" "" "1" "2" "3" "" "" "" "" "")
  = Normal tt (error_page (page "wheat" "" "1" "2" "3" "" "" "" "" "")
                          "No formula defined for this crop.") /\
  predict (page "" "" "1" "2" "3" "" "" "" "" "")
  = Normal tt (error_page (page "" "" "1" "2" "3" "" "" "" "" "")
                          "Please select a crop.") /\
  predict (tur_page "1" "500" "")
  = Normal tt (error_page (tur_page "1" "500" "")
                          "Enter fertilizers (kg) for Tur.").
Proof. by_computation. Qed.

(** ** 15. Boundaries *)

Lemma zero_value_not_positive (v : nullable) :
  is_zero_value v = true -> not_positive v = true.
Proof.
  destruct v as [x|]; [|intros [=]]. cbn [is_zero_value].
  unfold not_positive. cbn [is_null ToNumber orb].
  rewrite FloatAxioms.eqb_spec, FloatAxioms.leb_spec. unfold SFeqb, SFleb.
  destruct (SFcompare (Prim2SF x) (Prim2SF 0)) as [[]|]; congruence.
Qed.

Lemma zero_value_nonneg (v : nullable) :
  is_zero_value v = true -> not_nonneg v = false.
Proof.
  destruct v as [x|]; [|intros [=]]. cbn [is_zero_value].
  unfold not_nonneg. cbn [is_null ToNumber orb].
  rewrite FloatAxioms.eqb_spec, FloatAxioms.ltb_spec. unfold SFeqb, SFltb.
  destruct (SFcompare (Prim2SF x) (Prim2SF 0)) as [[]|]; congruence.
Qed.

Lemma falsy_false (s : string) : s <> ""%string -> falsy s = false.
Proof. intros H. apply String.eqb_neq. exact H. Qed.

(** C6: for each of the three crops, an area equal to 0 is rejected: an
    error is shown and the result is left empty, whatever the other fields
    hold (the message is the crop's area message, or for Gram the rainfall
    message when a rainfall field is invalid too, that check coming first).
    Rainfall equal to 0 and fertilizer equal to 0 are accepted, each on its
    own as well as together: when the area is positive, every rainfall field
    and the fertilizer are each either equal to 0 or otherwise valid, and for
    Maize a management option is selected, the prediction is made: the
    [switch] is left with a yield, no error is shown and the result field
    holds that yield, clamped and rounded, followed by " quintals (approx.)"
    and the label. *)
Theorem zero_boundary (p : Page) :
  wired p ->
  In (cropSelect p) ["tur"; "maize"; "gram"]%string ->
  (is_zero_value (area_field p) = true ->
   exists (msg : string) (p' : Page),
     predict p = Normal tt p' /\
     p' = error_page p msg /\
     errorMsg p' = Some (mkError msg "block") /\
     resultInput p' = Some ""%string /\
     (msg = "Enter a valid positive area for Tur."%string \/
      msg = "Enter a valid positive area for Maize."%string \/
      msg = "Enter a valid positive area for Gram."%string \/
      msg = "Enter rainfall for September, October, and November for Gram."%string)) /\
  (not_positive (area_field p) = false ->
   Forall (fun v => is_zero_value v = true \/ not_nonneg v = false)
          (rain_fields p) ->
   (is_zero_value (fert_field p) = true \/ not_nonneg (fert_field p) = false) ->
   (cropSelect p = "maize"%string -> mgmt p <> ""%string) ->
   exists (y : float) (label : string) (p' : Page),
     switch_crop (cropSelect p) p = Normal (Break y label) p /\
     predict p = Normal tt p' /\
     errorMsg p' = Some (mkError "" "none") /\
     resultInput p'
     = Some (NumberToString.toString (round2 (clamp y))
             ++ " quintals (approx.)" ++ label)%string /\
     p' = result_page p (NumberToString.toString (round2 (clamp y))
                         ++ " quintals (approx.)" ++ label)%string).
Proof.
  intros W C. split.
  - intros Z. apply zero_value_not_positive in Z.
    assert (E : exists msg,
               first_failure (checks p) = Some msg /\
               (msg = "Enter a valid positive area for Tur."%string \/
                msg = "Enter a valid positive area for Maize."%string \/
                msg = "Enter a valid positive area for Gram."%string \/
                msg = "Enter rainfall for September, October, and November for Gram."%string)).
    { revert Z. unfold area_field, checks, check_crop_selected.
      destruct C as [<-|[<-|[<-|[]]]];
        cbn [String.eqb Ascii.eqb Bool.eqb falsy first_failure check_area_tur
             check_area_maize check_rain_gram check_area_gram snd];
        intros ->.
      - eexists. split; [reflexivity | auto].
      - eexists. split; [reflexivity | auto].
      - destruct (_ || _); eexists; (split; [reflexivity | auto]). }
    destruct E as (msg & Hf & Hm).
    exists msg, (error_page p msg).
    split; [exact (predict_fails p msg W Hf)|].
    split; [reflexivity|]. split; [reflexivity|]. split; [reflexivity|].
    exact Hm.
  - intros A R F M.
    assert (V : forall v, is_zero_value v = true \/ not_nonneg v = false ->
                          not_nonneg v = false).
    { intros v [Z|N]; [exact (zero_value_nonneg v Z) | exact N]. }
    assert (E : first_failure (checks p) = None).
    { apply V in F.
      revert A R F M.
      unfold area_field, rain_fields, fert_field, checks, check_crop_selected,
        check_management.
      destruct C as [<-|[<-|[<-|[]]]]; cbn [String.eqb Ascii.eqb Bool.eqb
        first_failure falsy check_area_tur check_rain_tur
        check_fert_tur check_area_maize check_rain_maize check_fert_maize
        check_rain_gram check_area_gram check_fert_gram];
        intros -> R -> M.
      + inversion R as [|? ? R1 _]; subst. rewrite (V _ R1). reflexivity.
      + inversion R as [|? ? R1 _]; subst.
        rewrite (V _ R1), (falsy_false _ (M eq_refl)). reflexivity.
      + inversion R as [|? ? R1 R']; subst.
        inversion R' as [|? ? R2 R'']; subst.
        inversion R'' as [|? ? R3 _]; subst.
        rewrite (V _ R1), (V _ R2), (V _ R3). reflexivity. }
    exists (yield_at_break p), (label_at_break p).
    exists (result_page p (format (shown_value p) (label_at_break p))).
    split.
    { rewrite (switch_run p W (passes_crop_selected p E)), E. reflexivity. }
    split; [exact (predict_passes p W E)|].
    split; [reflexivity|]. split; reflexivity.
Qed.

Lemma zero_boundary_witness :
  (exists (msg : string) (p' : Page),
     predict (tur_page "0" "10" "10") = Normal tt p' /\
     p' = error_page (tur_page "0" "10" "10") msg /\
     errorMsg p' = Some (mkError msg "block") /\
     resultInput p' = Some ""%string /\
     (msg = "Enter a valid positive area for Tur."%string \/
      msg = "Enter a valid positive area for Maize."%string \/
      msg = "Enter a valid positive area for Gram."%string \/
      msg = "Enter rainfall for September, October, and November for Gram."%string)) /\
  (exists (y : float) (label : string) (p' : Page),
     switch_crop (cropSelect (gram_page "0" "12" "0" "1" "5"))
                 (gram_page "0" "12" "0" "1" "5")
     = Normal (Break y label) (gram_page "0" "12" "0" "1" "5") /\
     predict (gram_page "0" "12" "0" "1" "5") = Normal tt p' /\
     errorMsg p' = Some (mkError "" "none") /\
     resultInput p'
     = Some (NumberToString.toString (round2 (clamp y))
             ++ " quintals (approx.)" ++ label)%string /\
     p' = result_page (gram_page "0" "12" "0" "1" "5")
            (NumberToString.toString (round2 (clamp y))
             ++ " quintals (approx.)" ++ label)%string).
Proof.
  split.
  - apply (zero_boundary (tur_page "0" "10" "10")).
    + repeat split; discriminate.
    + cbn. auto.
    + vm_compute. reflexivity.
  - apply (zero_boundary (gram_page "0" "12" "0" "1" "5")).
    + repeat split; discriminate.
    + cbn. auto.
    + vm_compute. reflexivity.
    + repeat constructor; vm_compute; reflexivity.
    + right. vm_compute. reflexivity.
    + cbn. intros [=].
Defined.

Example zero_boundary_outputs :
  predict (tur_page "0" "10" "10")
  = Normal tt (error_page (tur_page "0" "10" "10")
                          "Enter a valid positive area for Tur.") /\
  predict (maize_page "good" "0" "10" "10")
  = Normal tt (error_page (maize_page "good" "0" "10" "10")
                          "Enter a valid positive area for Maize.") /\
  predict (gram_page "1" "1" "1" "0" "1")
  = Normal tt (error_page (gram_page "1" "1" "1" "0" "1")
                          "Enter a valid positive area for Gram.") /\
  predict (tur_page "1" "0" "0")
  = Normal tt (result_page (tur_page "1" "0" "0") "1.01 quintals (approx.) (Tur)") /\
  predict (gram_page "0" "0" "0" "1" "0")
  = Normal tt (result_page (gram_page "0" "0" "0" "1" "0")
                           "67.36 quintals (approx.) (Gram)") /\
  predict (tur_page "1" "0" "50")
  = Normal tt (result_page (tur_page "1" "0" "50") "4.82 quintals (approx.) (Tur)") /\
  predict (tur_page "1" "500" "0")
  = Normal tt (result_page (tur_page "1" "500" "0") "3.3 quintals (approx.) (Tur)").
Proof. by_computation. Qed.

(** ** 16. The management selection *)

(** C7 (as the specification states it, refuted): a management value other
    than "good" and "poor" is not rejected; it is taken for Good. *)
Lemma unknown_management_is_taken_for_good :
  ~ management_validated (maize_example "excellent").
Proof.
  unfold management_validated. intros H.
  destruct H as [msg H]; [intros [=] | intros [=] |].
  assert (C : predict (maize_example "excellent")
              = Normal tt (result_page (maize_example "excellent")
                  "10.51 quintals (approx.) (Maize, Good management)"))
    by (vm_compute; reflexivity).
  rewrite C in H. discriminate H.
Qed.

(** C7 (amended): for Maize, an absent (empty) management selection is
    always an error: once area, rainfall and fertilizer are valid it is
    reported as "Select quality of management for Maize.", and no default is
    substituted for it. The selection "poor" gives the factor 0.75 and the
    Poor label. Every other non-empty selection, inside or outside
    {good, poor}, is treated as Good: factor 1.0 and the Good label. *)
Theorem management_selection (p : Page) :
  wired p ->
  cropSelect p = "maize"%string ->
  (mgmt p = ""%string -> exists msg, predict p = Normal tt (error_page p msg)) /\
  (not_positive (area_tm p) = false ->
   not_nonneg (rain_tm p) = false ->
   not_nonneg (fert_tm p) = false ->
   let base := baseMaize (ToNumber (area_tm p)) (ToNumber (rain_tm p))
                         (ToNumber (fert_tm p)) in
   (mgmt p = ""%string ->
    predict p = Normal tt (error_page p "Select quality of management for Maize.")) /\
   (mgmt p = "poor"%string ->
    predict p = Normal tt (result_page p (format (round2 (clamp (base * 0.75)))
                                                 " (Maize, Poor management)"))) /\
   (mgmt p <> ""%string -> mgmt p <> "poor"%string ->
    predict p = Normal tt (result_page p (format (round2 (clamp (base * 1.0)))
                                                 " (Maize, Good management)")))).
Proof.
  intros W C. split.
  - intros M.
    assert (E : existsb fst (checks p) = true).
    { unfold checks, check_management. rewrite C, M. cbn.
      rewrite !orb_true_r. reflexivity. }
    destruct (first_failure_exists _ E) as (msg & Hf & _).
    exists msg. exact (predict_fails p msg W Hf).
  - intros A R F base. rewrite (predict_run p W).
    unfold checks, check_crop_selected, check_area_maize, check_rain_maize,
      check_fert_maize, check_management, yield_at_break, label_at_break,
      management.
    rewrite C. cbn [String.eqb Ascii.eqb Bool.eqb falsy first_failure].
    rewrite A, R, F. repeat split.
    + intros ->. reflexivity.
    + intros ->. reflexivity.
    + intros E P. apply String.eqb_neq in E, P.
      unfold falsy. rewrite E, P. reflexivity.
Qed.

Lemma management_selection_witness :
  (mgmt (maize_example "excellent") = ""%string ->
   exists msg, predict (maize_example "excellent")
               = Normal tt (error_page (maize_example "excellent") msg)) /\
  (let base := baseMaize (ToNumber (area_tm (maize_example "excellent")))
                         (ToNumber (rain_tm (maize_example "excellent")))
                         (ToNumber (fert_tm (maize_example "excellent"))) in
   (mgmt (maize_example "excellent") = ""%string ->
    predict (maize_example "excellent")
    = Normal tt (error_page (maize_example "excellent")
                            "Select quality of management for Maize.")) /\
   (mgmt (maize_example "excellent") = "poor"%string ->
    predict (maize_example "excellent")
    = Normal tt (result_page (maize_example "excellent")
                   (format (round2 (clamp (base * 0.75)))
                           " (Maize, Poor management)"))) /\
   (mgmt (maize_example "excellent") <> ""%string ->
    mgmt (maize_example "excellent") <> "poor"%string ->
    predict (maize_example "excellent")
    = Normal tt (result_page (maize_example "excellent")
                   (format (round2 (clamp (base * 1.0)))
                           " (Maize, Good management)")))).
Proof.
  destruct (management_selection (maize_example "excellent")) as [H1 H2].
  - repeat split; discriminate.
  - reflexivity.
  - split; [exact H1|]. apply H2; vm_compute; reflexivity.
Defined.

Example management_outputs :
  predict (maize_example "")
  = Normal tt (error_page (maize_example "")
                          "Select quality of management for Maize.") /\
  predict (maize_example "excellent")
  = Normal tt (result_page (maize_example "excellent")
                 "10.51 quintals (approx.) (Maize, Good management)") /\
  predict (maize_example "Poor")
  = Normal tt (result_page (maize_example "Poor")
                 "10.51 quintals (approx.) (Maize, Good management)").
Proof. by_computation. Qed.

(** ** 17. Input parsing *)

(** C2 (as the specification states it, refuted): text that parses to a
    non-finite number is not mapped to the invalid marker. *)
Lemma parseNumber_keeps_Infinity :
  ~ finite_or_null (parseNumber (Some "Infinity"%string)).
Proof.
  assert (E : parseNumber (Some "Infinity"%string) = Some infinity)
    by (vm_compute; reflexivity).
  rewrite E. cbn [finite_or_null]. vm_compute. intros [=].
Qed.

Lemma unsigned_literal_none (r : string) :
  prefix "Infinity" r ||
  match r with
  | String c r' =>
      match ParseFloat.digit_of c, r' with
      | Some _, _ => true
      | None, String d _ =>
          Ascii.eqb c "." &&
          match ParseFloat.digit_of d with Some _ => true | None => false end
      | None, EmptyString => false
      end
  | EmptyString => false
  end = false ->
  ParseFloat.unsigned_literal r = None.
Proof.
  intros H. apply orb_false_iff in H. destruct H as [HI H].
  unfold ParseFloat.unsigned_literal. rewrite HI.
  destruct r as [|c r']; [reflexivity|].
  cbn [ParseFloat.digits].
  destruct (ParseFloat.digit_of c) eqn:Dc; [discriminate|].
  destruct (Ascii.eqb c ".") eqn:Ec.
  - apply Ascii.eqb_eq in Ec. subst c.
    destruct r' as [|d r'']; [reflexivity|].
    cbn [ParseFloat.digits].
    destruct (ParseFloat.digit_of d); [discriminate|]. reflexivity.
  - destruct c as [[] [] [] [] [] [] [] []]; try reflexivity; discriminate.
Qed.

Lemma of_decimal_not_nan (m e : Z) : is_nan (Number.of_decimal m e) = false.
Proof.
  assert (R : forall n d, is_nan (Number.of_ratio n d) = false).
  { intros n d. unfold Number.of_ratio.
    destruct (_ =? 0)%Z; [reflexivity|].
    destruct (_ || _); [reflexivity|].
    apply FloatFacts.nonneg_not_nan, FloatFacts.nonneg_scale2. }
  unfold Number.of_decimal.
  destruct (m =? 0)%Z; [reflexivity|].
  destruct (0 <=? e)%Z; apply R.
Qed.

Lemma literal_value_not_nan (l : ParseFloat.literal) :
  is_nan (ParseFloat.literal_value l) = false.
Proof.
  destruct l as [|m e]; [reflexivity | apply of_decimal_not_nan].
Qed.

Lemma unsigned_literal_some (r : string) :
  prefix "Infinity" r ||
  match r with
  | String c r' =>
      match ParseFloat.digit_of c, r' with
      | Some _, _ => true
      | None, String d _ =>
          Ascii.eqb c "." &&
          match ParseFloat.digit_of d with Some _ => true | None => false end
      | None, EmptyString => false
      end
  | EmptyString => false
  end = true ->
  exists l, ParseFloat.unsigned_literal r = Some l.
Proof.
  unfold ParseFloat.unsigned_literal.
  destruct (prefix "Infinity" r); [intros _; eexists; reflexivity|].
  cbn [orb]. destruct r as [|c r']; [intros [=]|].
  cbn [ParseFloat.digits].
  destruct (ParseFloat.digit_of c) as [d|] eqn:Dc.
  - intros _. destruct (ParseFloat.digits r') as [ds r1].
    destruct r1 as [|c1 r2]; [eexists; reflexivity|].
    destruct (Ascii.eqb c1 ".") eqn:E.
    + apply Ascii.eqb_eq in E. subst c1.
      destruct (ParseFloat.digits r2) as [fp r3]. eexists; reflexivity.
    + destruct c1 as [[] [] [] [] [] [] [] []];
        try discriminate E; eexists; reflexivity.
  - destruct r' as [|d r'']; [intros [=]|].
    intros H. apply andb_true_iff in H. destruct H as [Hc Hd].
    apply Ascii.eqb_eq in Hc. subst c. cbn [ParseFloat.digits].
    destruct (ParseFloat.digit_of d) as [dv|]; [|discriminate Hd].
    destruct (ParseFloat.digits r'') as [fp r3]. eexists; reflexivity.
Qed.

Lemma begins_literal_parses (s : string) :
  begins_literal s = true -> exists v, parseNumber (Some s) = Some v.
Proof.
  unfold begins_literal, parseNumber, ParseFloat.parseFloat, Number.isNaN.
  cbn [value_or_empty].
  destruct (ParseFloat.sign (ParseFloat.trim_start s)) as [neg r].
  intros H. destruct (unsigned_literal_some r H) as [l ->].
  destruct neg.
  - rewrite FloatFacts.is_nan_opp, literal_value_not_nan. eexists; reflexivity.
  - rewrite literal_value_not_nan. eexists; reflexivity.
Qed.

(** C2 (amended): for every raw field value the parsing step returns either
    the invalid marker or a number that is not NaN, namely [parseFloat] of
    the text; it may be [+Infinity] or [-Infinity]. The empty string, and
    every text that after leading white space and an optional sign does not
    start a decimal literal, map to the invalid marker and not to zero, and
    no other text does; "0" parses to the number 0. Text that parses to a
    non-finite number is returned as that number, and text that only starts
    with a number is parsed up to the first character that cannot continue
    it. *)
Theorem parseNumber_contract :
  (forall (input : option string) (v : float),
     parseNumber input = Some v ->
     v = ParseFloat.parseFloat (value_or_empty input) /\ is_nan v = false) /\
  parseNumber (Some ""%string) = None /\
  (forall s : string, begins_literal s = false -> parseNumber (Some s) = None) /\
  (forall s : string, begins_literal s = true ->
                      exists v, parseNumber (Some s) = Some v) /\
  parseNumber (Some "0"%string) = Some 0 /\
  parseNumber (Some "Infinity"%string) = Some infinity /\
  parseNumber (Some "-Infinity"%string) = Some neg_infinity /\
  parseNumber (Some "1e999"%string) = Some infinity /\
  parseNumber (Some "12abc"%string) = Some 12.
Proof.
  split.
  { intros input v. unfold parseNumber, Number.isNaN.
    destruct (is_nan (ParseFloat.parseFloat (value_or_empty input))) eqn:E;
      [intros [=]|].
    intros [= <-]. split; [reflexivity | exact E]. }
  split; [vm_compute; reflexivity|].
  split.
  { intros s. unfold begins_literal, parseNumber, ParseFloat.parseFloat.
    cbn [value_or_empty].
    destruct (ParseFloat.sign (ParseFloat.trim_start s)) as [neg r].
    intros H. rewrite (unsigned_literal_none r H). reflexivity. }
  split; [exact begins_literal_parses|].
  by_computation.
Qed.

Lemma parseNumber_contract_witness :
  parseNumber (Some "12abc"%string) = Some 12 /\
  12 = ParseFloat.parseFloat "12abc" /\ is_nan 12 = false /\
  parseNumber (Some "kg"%string) = None.
Proof.
  destruct parseNumber_contract as (H1 & _ & H3 & _ & _ & _ & _ & _ & H8).
  split; [exact H8|].
  split; [exact (proj1 (H1 (Some "12abc"%string) 12 H8))|].
  split; [exact (proj2 (H1 (Some "12abc"%string) 12 H8))|].
  apply H3. vm_compute. reflexivity.
Defined.

(** C10: [parseNumber] is total. For a missing element it returns the
    invalid marker, exactly as for an element whose text is empty; for every
    element it returns the marker or the number parsed from its text, never
    NaN; and [predict] completes without an exception on every page whose
    error, result and management elements exist, whichever of the eight input
    elements are missing. *)
Theorem parseNumber_total :
  parseNumber None = None /\
  parseNumber None = parseNumber (Some ""%string) /\
  (forall input : option string,
     parseNumber input = None \/
     exists v, parseNumber input = Some v /\
               v = ParseFloat.parseFloat (value_or_empty input) /\
               Number.isNaN v = false) /\
  (forall (crop : string) (e : ErrorElement) (r m : string)
          (a rn f s o n ga gf : option string),
     exists p', predict (mkPage crop (Some e) (Some r) a rn f (Some m)
                                s o n ga gf) = Normal tt p').
Proof.
  split; [vm_compute; reflexivity|].
  split; [vm_compute; reflexivity|].
  split.
  - intros input. unfold parseNumber.
    destruct (Number.isNaN (ParseFloat.parseFloat (value_or_empty input))) eqn:E.
    + left. reflexivity.
    + right. eexists. repeat split. exact E.
  - intros. eexists. apply predict_run. repeat split; discriminate.
Qed.

Example predict_without_inputs :
  predict (page_without_inputs "tur")
  = Normal tt (error_page (page_without_inputs "tur")
                          "Enter a valid positive area for Tur.") /\
  predict (page_without_inputs "maize")
  = Normal tt (error_page (page_without_inputs "maize")
                          "Enter a valid positive area for Maize.") /\
  predict (page_without_inputs "gram")
  = Normal tt (error_page (page_without_inputs "gram")
        "Enter rainfall for September, October, and November for Gram.").
Proof. by_computation. Qed.

(** The management select is read without a guard: were that element
    missing, the Maize case would throw. *)
Example predict_needs_management_select :
  predict (mkPage "maize" (Some (mkError "" "none")) (Some "")
                  (Some "1") (Some "1") (Some "1") None
                  None None None None None)%string
  = TypeError.
Proof. vm_compute. reflexivity. Qed.

(** ** 18. The management factor *)

Lemma wired_set_management (m : string) (p : Page) :
  wired p -> wired (set_management m p).
Proof.
  unfold wired. cbn. intuition congruence.
Qed.

Lemma maize_break (m : string) (p : Page) :
  wired p ->
  cropSelect p = "maize"%string ->
  not_positive (area_tm p) = false ->
  not_nonneg (rain_tm p) = false ->
  not_nonneg (fert_tm p) = false ->
  m <> ""%string ->
  switch_crop "maize" (set_management m p)
  = Normal (Break (baseMaize (ToNumber (area_tm p)) (ToNumber (rain_tm p))
                             (ToNumber (fert_tm p))
                   * fst (management m))
                  (snd (management m)))
           (set_management m p).
Proof.
  intros W C A R F M.
  pose proof (switch_run (set_management m p) (wired_set_management m p W)) as H.
  change (cropSelect (set_management m p)) with (cropSelect p) in H.
  rewrite C in H. rewrite (H eq_refl). clear H.
  unfold checks, check_crop_selected, check_area_maize, check_rain_maize,
    check_fert_maize, check_management, yield_at_break, label_at_break.
  change (cropSelect (set_management m p)) with (cropSelect p).
  change (area_tm (set_management m p)) with (area_tm p).
  change (rain_tm (set_management m p)) with (rain_tm p).
  change (fert_tm (set_management m p)) with (fert_tm p).
  change (mgmt (set_management m p)) with m.
  rewrite C. cbn [String.eqb Ascii.eqb Bool.eqb falsy first_failure].
  rewrite A, R, F. apply String.eqb_neq in M. unfold falsy. rewrite M.
  reflexivity.
Qed.

(** Clamping commutes with the factor 0.75, up to the sign of a zero. *)
Lemma clamp_scaled (x : float) :
  is_nan x = false -> (clamp (x * 0.75) =? clamp x * 0.75) = true.
Proof.
  intros N. unfold clamp at 2. destruct (x <? 0) eqn:E.
  - change (0 * 0.75)%float with 0%float.
    unfold clamp. destruct (x * 0.75 <? 0) eqn:E2; [reflexivity|].
    rewrite FloatFacts.ltb_zero in E, E2.
    rewrite FloatAxioms.eqb_spec.
    change (Prim2SF 0) with (S754_zero false).
    rewrite FloatAxioms.mul_spec in E2 |- *.
    change (Prim2SF 0.75) with (S754_finite false 6755399441055744 (-53)) in E2 |- *.
    unfold SF64mul, SFmul in E2 |- *.
    destruct (Prim2SF x) as [s|s| |s m e]; try discriminate E; subst s;
      cbn [xorb] in E2 |- *; [discriminate E2|].
    pose proof (FloatFacts.binary_round_aux_signed true
                  (Zpos (m * 6755399441055744)) (e + -53) loc_Exact
                  ltac:(lia)) as S.
    destruct (binary_round_aux prec emax true _ _ _) as [[]|[]| |[] m' e'];
      cbn in S, E2 |- *; congruence.
  - assert (P : nonneg x).
    { unfold nonneg. rewrite FloatFacts.leb_zero.
      rewrite FloatFacts.is_nan_spec in N. rewrite FloatFacts.ltb_zero in E.
      destruct (Prim2SF x) as [s|s| |s m e]; cbn [sf_nonneg]; try congruence;
        rewrite E; reflexivity. }
    pose proof (FloatFacts.nonneg_mul_finite x 0.75 6755399441055744 (-53)
                  eq_refl P) as Q.
    unfold clamp. rewrite (FloatFacts.nonneg_not_below_zero _ Q).
    apply FloatFacts.nonneg_eqb_refl, Q.
Qed.

(** C4: for every valid area, rainfall and fertilizer, the Maize yield
    computed with management "poor" is exactly 0.75 times the yield computed
    from the same three fields with management "good", the two values being
    those of [predictedYield] when the [switch] is left, before clamping and
    rounding; and, the yield not being NaN, the same holds of the two values
    after clamping, still before rounding, as an equality of numbers ([==]). *)
Theorem poor_is_three_quarters_of_good (p : Page) :
  wired p ->
  cropSelect p = "maize"%string ->
  not_positive (area_tm p) = false ->
  not_nonneg (rain_tm p) = false ->
  not_nonneg (fert_tm p) = false ->
  exists good poor : float,
    switch_crop "maize" (set_management "good" p)
    = Normal (Break good " (Maize, Good management)") (set_management "good" p) /\
    switch_crop "maize" (set_management "poor" p)
    = Normal (Break poor " (Maize, Poor management)") (set_management "poor" p) /\
    poor = 0.75 * good /\
    poor = good * 0.75 /\
    (is_nan good = false -> (clamp poor =? 0.75 * clamp good) = true).
Proof.
  intros W C A R F.
  set (base := baseMaize (ToNumber (area_tm p)) (ToNumber (rain_tm p))
                         (ToNumber (fert_tm p))).
  exists (base * 1.0), (base * 0.75).
  split; [apply (maize_break "good" p W C A R F); intros [=]|].
  split; [apply (maize_break "poor" p W C A R F); intros [=]|].
  rewrite FloatFacts.mul_1_r.
  split; [apply FloatFacts.mul_comm|]. split; [reflexivity|].
  intros N. rewrite (FloatFacts.mul_comm 0.75). apply clamp_scaled, N.
Qed.

Lemma poor_is_three_quarters_of_good_witness :
  exists good poor : float,
    switch_crop "maize" (set_management "good" (maize_example ""))
    = Normal (Break good " (Maize, Good management)")
             (set_management "good" (maize_example "")) /\
    switch_crop "maize" (set_management "poor" (maize_example ""))
    = Normal (Break poor " (Maize, Poor management)")
             (set_management "poor" (maize_example "")) /\
    poor = 0.75 * good /\
    poor = good * 0.75 /\
    (is_nan good = false -> (clamp poor =? 0.75 * clamp good) = true).
Proof.
  apply (poor_is_three_quarters_of_good (maize_example "")).
  - repeat split; discriminate.
  - reflexivity.
  - vm_compute. reflexivity.
  - vm_compute. reflexivity.
  - vm_compute. reflexivity.
Defined.

Example maize_raw_yields :
  switch_crop "maize" (maize_example "good")
  = Normal (Break 10.50839346 " (Maize, Good management)") (maize_example "good") /\
  switch_crop "maize" (maize_example "poor")
  = Normal (Break 7.8812950950000005 " (Maize, Poor management)") (maize_example "poor").
Proof. by_computation. Qed.

(** ** 19. Clamping and rounding *)

Lemma clamp_not_below_zero (y : float) : (clamp y <? 0) = false.
Proof.
  unfold clamp. destruct (y <? 0) eqn:E; [reflexivity | exact E].
Qed.

Lemma nonneg_clamp (y : float) : is_nan y = false -> nonneg (clamp y).
Proof.
  unfold nonneg, clamp. intros N.
  destruct (y <? 0) eqn:E; [reflexivity|].
  rewrite FloatFacts.is_nan_spec in N. rewrite FloatFacts.ltb_zero in E.
  rewrite FloatFacts.leb_zero.
  destruct (Prim2SF y) as [s|s| |s m e]; cbn [sf_nonneg]; try congruence;
    rewrite E; reflexivity.
Qed.

Lemma nonneg_round2 (c : float) : nonneg c -> nonneg (round2 c).
Proof.
  intros H. unfold round2.
  apply (FloatFacts.nonneg_div_finite _ 100 7036874417766400 (-46) eq_refl).
  apply FloatFacts.nonneg_round.
  apply (FloatFacts.nonneg_mul_finite _ 100 7036874417766400 (-46) eq_refl).
  exact H.
Qed.

Lemma round_is_nearest_ties_up (x : float) (s : bool) (m : positive) (e : Z) :
  Prim2SF x = S754_finite s m e ->
  (e < 0)%Z ->
  let v := if s then Zneg m else Zpos m in
  exists k : Z,
    ((2 * k - 1) * 2 ^ (- e) <= 2 * v < (2 * k + 1) * 2 ^ (- e))%Z /\
    Number.round x
    = if (k =? 0)%Z then (if s then (-0)%float else 0%float) else Number.of_Z k.
Proof.
  intros H He v. unfold Number.round. rewrite H.
  apply Z.leb_gt in He. rewrite He. apply Z.leb_gt in He.
  fold v. exists ((2 * v + 2 ^ (- e)) / 2 ^ (- e + 1))%Z.
  split; [|reflexivity].
  assert (D : (0 < 2 ^ (- e))%Z) by (apply Z.pow_pos_nonneg; lia).
  replace (2 ^ (- e + 1))%Z with (2 * 2 ^ (- e))%Z
    by (rewrite Z.pow_add_r by lia; lia).
  set (d := (2 ^ (- e))%Z) in *.
  pose proof (Z.div_mod (2 * v + d) (2 * d) ltac:(lia)) as E.
  pose proof (Z.mod_pos_bound (2 * v + d) (2 * d) ltac:(lia)) as B.
  set (k := ((2 * v + d) / (2 * d))%Z) in *.
  nia.
Qed.

(** C5 (as the specification states it, refuted): a page that passes
    validation can show the value NaN, which is not at least 0. Two months of
    rainfall "Infinity" pass the checks, and their terms, with coefficients
    of opposite signs, cancel to NaN. *)
Lemma infinite_rain_shows_NaN : ~ value_is_nonneg gram_infinite_rain.
Proof.
  unfold value_is_nonneg. intros H.
  assert (V : first_failure (checks gram_infinite_rain) = None)
    by (vm_compute; reflexivity).
  specialize (H V). vm_compute in H. discriminate H.
Qed.

(** C5 (amended): on every page that passes validation [predict] shows the
    value [Math.round(c * 100) / 100], computed in binary64, where [c] is the
    raw formula result with a result below zero replaced by 0 before the
    rounding, so that [c] is never below zero. A finite product [c * 100] is
    never negative; when its binary exponent is negative, [Math.round] takes
    the integer nearest to it, the larger one on a tie (away from zero), and
    the value shown is that integer divided by 100; otherwise the product is
    an integer already and is divided by 100 as it is. Whenever the raw
    result is not NaN, the value shown is at least 0. *)
Theorem value_clamped_then_rounded (p : Page) :
  wired p ->
  first_failure (checks p) = None ->
  let y := yield_at_break p in
  let c := clamp y in
  predict p = Normal tt (result_page p (format (shown_value p) (label_at_break p))) /\
  shown_value p = Number.round (c * 100) / 100 /\
  (c <? 0) = false /\
  ((y <? 0) = true -> c = 0) /\
  ((y <? 0) = false -> c = y) /\
  (forall (s : bool) (m : positive) (e : Z),
     Prim2SF (c * 100) = S754_finite s m e -> (e < 0)%Z ->
     s = false /\
     exists k : Z,
       ((2 * k - 1) * 2 ^ (- e) <= 2 * Zpos m < (2 * k + 1) * 2 ^ (- e))%Z /\
       shown_value p = Number.of_Z k / 100) /\
  (forall (s : bool) (m : positive) (e : Z),
     Prim2SF (c * 100) = S754_finite s m e -> (0 <= e)%Z ->
     shown_value p = c * 100 / 100) /\
  (is_nan y = false -> (0 <=? shown_value p) = true).
Proof.
  intros W H y c.
  split; [exact (predict_passes p W H)|].
  split; [reflexivity|].
  split; [apply clamp_not_below_zero|].
  split; [intros E; unfold c, clamp; rewrite E; reflexivity|].
  split; [intros E; unfold c, clamp; rewrite E; reflexivity|].
  split.
  - intros s m e P He.
    assert (S : s = false).
    { pose proof (clamp_not_below_zero y) as L. fold c in L.
      rewrite FloatFacts.ltb_zero in L.
      pose proof (FloatAxioms.mul_spec c 100) as M. rewrite P in M.
      change (Prim2SF 100) with (S754_finite false 7036874417766400 (-46)) in M.
      unfold SF64mul, SFmul in M.
      destruct (Prim2SF c) as [sc|sc| |sc mc ec]; try discriminate M.
      subst sc. cbn [xorb] in M.
      pose proof (FloatFacts.binary_round_aux_nonneg
                    (Zpos (mc * 7036874417766400)) (ec + -46) loc_Exact
                    ltac:(lia)) as N.
      rewrite <- M in N. cbn [sf_nonneg] in N.
      destruct s; [discriminate N | reflexivity]. }
    split; [exact S|]. subst s.
    destruct (round_is_nearest_ties_up (c * 100) false m e P He) as (k & B & R).
    exists k. split; [exact B|].
    change (shown_value p) with (Number.round (c * 100) / 100). rewrite R.
    destruct (k =? 0)%Z eqn:K; [|reflexivity].
    apply Z.eqb_eq in K. subst k. reflexivity.
  - split.
    + intros s m e P He.
      change (shown_value p) with (Number.round (c * 100) / 100).
      unfold Number.round. rewrite P.
      apply Z.leb_le in He. rewrite He. reflexivity.
    + intros N. apply nonneg_round2, nonneg_clamp, N.
Qed.

Lemma value_clamped_then_rounded_witness :
  let y := yield_at_break (tur_page "0.5" "0" "0") in
  let c := clamp y in
  predict (tur_page "0.5" "0" "0")
  = Normal tt (result_page (tur_page "0.5" "0" "0")
                 (format (shown_value (tur_page "0.5" "0" "0"))
                         (label_at_break (tur_page "0.5" "0" "0")))) /\
  shown_value (tur_page "0.5" "0" "0") = Number.round (c * 100) / 100 /\
  (c <? 0) = false /\
  ((y <? 0) = true -> c = 0) /\
  ((y <? 0) = false -> c = y) /\
  (forall (s : bool) (m : positive) (e : Z),
     Prim2SF (c * 100) = S754_finite s m e -> (e < 0)%Z ->
     s = false /\
     exists k : Z,
       ((2 * k - 1) * 2 ^ (- e) <= 2 * Zpos m < (2 * k + 1) * 2 ^ (- e))%Z /\
       shown_value (tur_page "0.5" "0" "0") = Number.of_Z k / 100) /\
  (forall (s : bool) (m : positive) (e : Z),
     Prim2SF (c * 100) = S754_finite s m e -> (0 <= e)%Z ->
     shown_value (tur_page "0.5" "0" "0") = c * 100 / 100) /\
  (is_nan y = false -> (0 <=? shown_value (tur_page "0.5" "0" "0")) = true).
Proof.
  apply (value_clamped_then_rounded (tur_page "0.5" "0" "0")).
  - repeat split; discriminate.
  - vm_compute. reflexivity.
Defined.

Example clamp_and_round_outputs :
  yield_at_break (tur_page "0.5" "0" "0") = -1.1615882866099501 /\
  predict (tur_page "0.5" "0" "0")
  = Normal tt (result_page (tur_page "0.5" "0" "0") "0 quintals (approx.) (Tur)") /\
  round2 0.125 = 0.13 /\
  round2 2.675 = 2.68 /\
  round2 1.005 = 1 /\
  predict gram_infinite_rain
  = Normal tt (result_page gram_infinite_rain "NaN quintals (approx.) (Gram)") /\
  predict (tur_page "1e308" "0" "0")
  = Normal tt (result_page (tur_page "1e308" "0" "0")
                           "Infinity quintals (approx.) (Tur)").
Proof. by_computation. Qed.

(** ** 20. [predict] on any page: exceptions, frame, idempotence *)

Lemma predict_run_ready (p : Page) :
  ready p -> predict p = Normal tt (final_page p).
Proof.
  intros (He & Hr & Hm).
  destruct (managementSelect p) as [m|] eqn:M.
  { unfold final_page. apply predict_run. repeat split; congruence. }
  assert (Hc : String.eqb (cropSelect p) "maize" = false).
  { apply String.eqb_neq. intros C. exact (Hm C eq_refl). }
  clear Hm.
  destruct p as [crop [e|] [r|] a rn f m0 s o n ga gf];
    cbn in He, Hr, M, Hc; try congruence. subst m0.
  unfold final_page, predict, checks, check_crop_selected, switch_crop,
    shown_value, yield_at_break, label_at_break, error_page, result_page.
  cbn [cropSelect]. rewrite Hc.
  run. unfold bind at 1. cbn [clearErrorAndResult]. run.
  destruct (falsy crop); [reflexivity|].
  destruct (String.eqb crop "tur").
  - unfold case_tur, check_area_tur, check_rain_tur, check_fert_tur, area_tm,
      rain_tm, fert_tm, not_positive, not_nonneg.
    run.
    destruct (is_null (parseNumber a) || _); [reflexivity|].
    destruct (is_null (parseNumber rn) || _); [reflexivity|].
    destruct (is_null (parseNumber f) || _); reflexivity.
  - rewrite ?Hc. destruct (String.eqb crop "gram").
    + unfold case_gram, check_area_gram, check_rain_gram, check_fert_gram,
        area_g, rain_sep, rain_oct, rain_nov, fert_g, not_positive,
        not_nonneg.
      run. rewrite !orb_assoc.
      destruct (_ || (ToNumber (parseNumber n) <? 0)); [reflexivity|].
      destruct (is_null (parseNumber ga) || _); [reflexivity|].
      destruct (is_null (parseNumber gf) || _); reflexivity.
    + reflexivity.
Qed.

Lemma predict_throws (p : Page) :
  errorMsg p = None \/ resultInput p = None \/
  (cropSelect p = "maize"%string /\ managementSelect p = None) ->
  predict p = TypeError.
Proof.
  destruct p as [crop [e|] [r|] a rn f [m|] s o n ga gf]; cbn;
    intros [H|[H|[H1 H2]]]; try discriminate; try reflexivity.
  subst crop. reflexivity.
Qed.

Lemma ready_or_not (p : Page) :
  ready p \/
  (errorMsg p = None \/ resultInput p = None \/
   (cropSelect p = "maize"%string /\ managementSelect p = None)).
Proof.
  unfold ready.
  destruct (errorMsg p); [|auto].
  destruct (resultInput p); [|auto].
  destruct (managementSelect p).
  - left. repeat split; congruence.
  - destruct (String.eqb (cropSelect p) "maize") eqn:C.
    + apply String.eqb_eq in C. auto.
    + apply String.eqb_neq in C. left. repeat split; congruence.
Qed.

Lemma predict_normal (p p' : Page) :
  predict p = Normal tt p' -> ready p /\ p' = final_page p.
Proof.
  intros H. destruct (ready_or_not p) as [R|T].
  - split; [exact R|]. rewrite (predict_run_ready p R) in H. congruence.
  - rewrite (predict_throws p T) in H. discriminate H.
Qed.

(** X1: [predict] throws exactly when an element it dereferences is missing:
    the error element, the result element, or, with the crop Maize, the
    management select. A missing management select does no harm with another
    crop, and a missing input element never does. *)
Theorem predict_throws_iff (p : Page) :
  predict p = TypeError <->
  (errorMsg p = None \/ resultInput p = None \/
   (cropSelect p = "maize"%string /\ managementSelect p = None)).
Proof.
  split.
  - intros H. destruct (ready_or_not p) as [R|T]; [|exact T].
    rewrite (predict_run_ready p R) in H. discriminate H.
  - apply predict_throws.
Qed.

(** X2: a run of [predict] that completes leaves the crop, the management
    selection and every input element as they were: it writes to the error
    and result elements only. *)
Theorem predict_keeps_inputs (p p' : Page) :
  predict p = Normal tt p' -> same_inputs p p'.
Proof.
  intros H. destruct (predict_normal p p' H) as [_ ->].
  unfold final_page. destruct (first_failure (checks p));
    repeat split; reflexivity.
Qed.

Lemma predict_keeps_inputs_witness : same_inputs tur_example
  (result_page tur_example "7.12 quintals (approx.) (Tur)").
Proof.
  apply (predict_keeps_inputs tur_example). vm_compute. reflexivity.
Defined.

Lemma final_page_same_inputs (p q : Page) :
  same_inputs p q -> final_page p = final_page q.
Proof.
  destruct p as [crop e r a rn f m s o n ga gf],
           q as [crop' e' r' a' rn' f' m' s' o' n' ga' gf'].
  unfold same_inputs. cbn.
  intros (-> & -> & -> & -> & -> & -> & -> & -> & -> & ->).
  unfold final_page.
  change (checks (mkPage crop' e r a' rn' f' m' s' o' n' ga' gf'))
    with (checks (mkPage crop' e' r' a' rn' f' m' s' o' n' ga' gf')).
  destruct (first_failure _); reflexivity.
Qed.

(** X3: what [predict] leaves on the page is a function of the crop, the
    management selection and the input elements alone: whatever error or
    result was shown before is overwritten, so two pages that differ only in
    what they show end the same (or both throw). *)
Theorem predict_ignores_previous_output (p q : Page) :
  same_inputs p q ->
  errorMsg p <> None -> resultInput p <> None ->
  errorMsg q <> None -> resultInput q <> None ->
  predict p = predict q.
Proof.
  intros S Pe Pr Qe Qr.
  pose proof S as (Sc & _ & _ & _ & Sm & _).
  destruct (ready_or_not p) as [R|T].
  - assert (R' : ready q).
    { destruct R as (_ & _ & Rm). repeat split; try assumption.
      rewrite <- Sc, <- Sm. exact Rm. }
    rewrite (predict_run_ready p R), (predict_run_ready q R').
    rewrite (final_page_same_inputs p q S). reflexivity.
  - destruct T as [T|[T|[Tc Tm]]]; try contradiction.
    rewrite (predict_throws p), (predict_throws q); auto.
    right; right. rewrite <- Sc, <- Sm. auto.
Qed.

Lemma predict_ignores_previous_output_witness :
  predict tur_example
  = predict (error_page tur_example "Enter rainfall (mm) for Tur.").
Proof.
  apply (predict_ignores_previous_output tur_example).
  - repeat split; reflexivity.
  - discriminate.
  - discriminate.
  - discriminate.
  - discriminate.
Defined.

(** X4: [predict] is idempotent: run again on the page it left, with the
    inputs untouched, it completes and leaves that page as it is. *)
Theorem predict_idempotent (p p' : Page) :
  predict p = Normal tt p' -> predict p' = Normal tt p'.
Proof.
  intros H. destruct (predict_normal p p' H) as [R ->].
  assert (S : same_inputs p (final_page p)).
  { unfold final_page. destruct (first_failure (checks p));
      repeat split; reflexivity. }
  assert (R' : ready (final_page p)).
  { destruct S as (Sc & _ & _ & _ & Sm & _). destruct R as (_ & _ & Rm).
    unfold final_page.
    destruct (first_failure (checks p)); (repeat split; [discriminate..|]);
      cbn; exact Rm. }
  rewrite (predict_run_ready _ R').
  rewrite <- (final_page_same_inputs p (final_page p) S).
  reflexivity.
Qed.

Lemma predict_idempotent_witness :
  predict (error_page gram_blank
             "Enter rainfall for September, October, and November for Gram.")
  = Normal tt (error_page gram_blank
             "Enter rainfall for September, October, and November for Gram.").
Proof.
  apply (predict_idempotent gram_blank). vm_compute. reflexivity.
Defined.

(** ** 21. What [predict] reads and what it shows *)

Lemma shown_same_crop_fields (p q : Page) :
  same_crop_fields p q ->
  first_failure (checks p) = first_failure (checks q) /\
  (first_failure (checks p) = None ->
   shown_value p = shown_value q /\ label_at_break p = label_at_break q).
Proof.
  intros (Sc & Stm & Sm & Sg).
  unfold checks, check_crop_selected, shown_value, yield_at_break,
    label_at_break.
  rewrite <- Sc. cbn [first_failure].
  destruct (falsy (cropSelect p)); [split; [reflexivity | intros [=]]|].
  destruct (String.eqb (cropSelect p) "tur") eqn:T.
  { apply String.eqb_eq in T. destruct (Stm (or_introl T)) as (A & R & F).
    unfold check_area_tur, check_rain_tur, check_fert_tur, area_tm, rain_tm,
      fert_tm. rewrite A, R, F. auto. }
  destruct (String.eqb (cropSelect p) "maize") eqn:M.
  { apply String.eqb_eq in M. destruct (Stm (or_intror M)) as (A & R & F).
    unfold check_area_maize, check_rain_maize, check_fert_maize,
      check_management, area_tm, rain_tm, fert_tm.
    rewrite A, R, F, (Sm M). auto. }
  destruct (String.eqb (cropSelect p) "gram") eqn:G.
  { apply String.eqb_eq in G. destruct (Sg G) as (S1 & S2 & S3 & A & F).
    unfold check_rain_gram, check_area_gram, check_fert_gram, rain_sep,
      rain_oct, rain_nov, area_g, fert_g.
    rewrite S1, S2, S3, A, F. auto. }
  split; [reflexivity | intros [=]].
Qed.

(** X5: [predict] reads only the fields of the selected crop. Two pages
    with the same crop that agree on that crop's fields (for Tur the three
    shared fields, for Maize these and the management selection, for Gram the
    five Gram fields) show the same error and the same result, whatever the
    other fields hold. *)
Theorem predict_reads_crop_fields_only (p q : Page) :
  ready p -> ready q ->
  same_crop_fields p q ->
  exists p' q' : Page,
    predict p = Normal tt p' /\ predict q = Normal tt q' /\
    errorMsg p' = errorMsg q' /\ resultInput p' = resultInput q'.
Proof.
  intros Rp Rq S.
  exists (final_page p), (final_page q).
  split; [exact (predict_run_ready p Rp)|].
  split; [exact (predict_run_ready q Rq)|].
  destruct (shown_same_crop_fields p q S) as [Hf Hv].
  unfold final_page. rewrite <- Hf.
  destruct (first_failure (checks p)); [split; reflexivity|].
  destruct (Hv eq_refl) as [-> ->]. split; reflexivity.
Qed.

Lemma predict_reads_crop_fields_only_witness :
  exists p' q' : Page,
    predict tur_example = Normal tt p' /\
    predict (page "tur" "poor" "1" "500" "50" "x" "-3" "" "1e9" "?")
    = Normal tt q' /\
    errorMsg p' = errorMsg q' /\ resultInput p' = resultInput q'.
Proof.
  apply (predict_reads_crop_fields_only tur_example).
  - repeat split; try discriminate.
  - repeat split; try discriminate.
  - split; [reflexivity|]. split; [intros _; repeat split|].
    split; intros [=].
Defined.

Lemma first_failure_In (cs : list check) (msg : string) :
  first_failure cs = Some msg -> In msg (map snd cs).
Proof.
  induction cs as [|[failed m] cs IH]; cbn; [intros [=]|].
  destruct failed; [intros [= ->]; auto | auto].
Qed.

Lemma format_nonempty (v : float) (label : string) : format v label <> ""%string.
Proof.
  unfold format. destruct (NumberToString.toString v); cbn; discriminate.
Qed.

(** X6: after a run of [predict] that completes, the page shows either an
    error or a result, never both and never neither: a visible non-empty
    message with an empty result field, or a hidden, empty error element with
    a non-empty result. *)
Theorem predict_shows_error_or_result (p p' : Page) :
  predict p = Normal tt p' ->
  (exists msg : string,
     msg <> ""%string /\
     errorMsg p' = Some (mkError msg "block") /\ resultInput p' = Some ""%string)
  \/
  (exists res : string,
     res <> ""%string /\
     errorMsg p' = Some (mkError "" "none") /\ resultInput p' = Some res).
Proof.
  intros H. destruct (predict_normal p p' H) as [_ ->].
  unfold final_page. destruct (first_failure (checks p)) as [msg|] eqn:F.
  - left. exists msg. split; [|split; reflexivity].
    exact (messages_nonempty p msg (first_failure_In _ _ F)).
  - right. eexists. split; [|split; reflexivity]. apply format_nonempty.
Qed.

Lemma predict_shows_error_or_result_witness :
  (exists msg : string,
     msg <> ""%string /\
     errorMsg (error_page (maize_example "")
                 "Select quality of management for Maize.")
     = Some (mkError msg "block") /\
     resultInput (error_page (maize_example "")
                    "Select quality of management for Maize.")
     = Some ""%string)
  \/
  (exists res : string,
     res <> ""%string /\
     errorMsg (error_page (maize_example "")
                 "Select quality of management for Maize.")
     = Some (mkError "" "none") /\
     resultInput (error_page (maize_example "")
                    "Select quality of management for Maize.")
     = Some res).
Proof.
  apply (predict_shows_error_or_result (maize_example "")).
  vm_compute. reflexivity.
Defined.

(** X7: on a page that has both the error and the result element, the two
    display helpers complete and compose by "last call wins": [showError]
    leaves the message visible and the result empty, [clearErrorAndResult]
    leaves the error hidden and both empty, an error shown over an earlier
    error replaces it, clearing after an error is clearing, an error after
    clearing is that error, and clearing twice is clearing once. (With an
    element missing a helper throws part-way and keeps what it had written,
    which this model of exceptions does not record.) *)
Theorem display_helpers_compose (m1 m2 : string) (p : Page) :
  errorMsg p <> None ->
  resultInput p <> None ->
  showError m2 p = Normal tt (error_page p m2) /\
  clearErrorAndResult p = Normal tt (cleared p) /\
  (showError m1 ;; showError m2)%dom p = Normal tt (error_page p m2) /\
  (showError m1 ;; clearErrorAndResult)%dom p = Normal tt (cleared p) /\
  (clearErrorAndResult ;; showError m2)%dom p = Normal tt (error_page p m2) /\
  (clearErrorAndResult ;; clearErrorAndResult)%dom p = Normal tt (cleared p) /\
  errorMsg (error_page p m2) = Some (mkError m2 "block") /\
  resultInput (error_page p m2) = Some ""%string /\
  errorMsg (cleared p) = Some (mkError "" "none") /\
  resultInput (cleared p) = Some ""%string.
Proof.
  destruct p as [crop [e|] [r|] a rn f m s o n ga gf]; cbn;
    intros He Hr; try congruence.
  repeat split; reflexivity.
Qed.

Lemma display_helpers_compose_witness :
  showError "second" tur_example = Normal tt (error_page tur_example "second") /\
  clearErrorAndResult tur_example = Normal tt (cleared tur_example) /\
  (showError "first" ;; showError "second")%dom tur_example
  = Normal tt (error_page tur_example "second") /\
  (showError "first" ;; clearErrorAndResult)%dom tur_example
  = Normal tt (cleared tur_example) /\
  (clearErrorAndResult ;; showError "second")%dom tur_example
  = Normal tt (error_page tur_example "second") /\
  (clearErrorAndResult ;; clearErrorAndResult)%dom tur_example
  = Normal tt (cleared tur_example) /\
  errorMsg (error_page tur_example "second") = Some (mkError "second" "block") /\
  resultInput (error_page tur_example "second") = Some ""%string /\
  errorMsg (cleared tur_example) = Some (mkError "" "none") /\
  resultInput (cleared tur_example) = Some ""%string.
Proof.
  apply (display_helpers_compose "first" "second" tur_example); discriminate.
Defined.

(** ** 22. What validation guarantees, and what a message tells *)

Lemma parseNumber_not_nan (input : option string) (x : float) :
  parseNumber input = Some x -> is_nan x = false.
Proof.
  unfold parseNumber, Number.isNaN.
  destruct (is_nan (ParseFloat.parseFloat (value_or_empty input))) eqn:E;
    [intros [=]|].
  intros [= <-]. exact E.
Qed.

Lemma positive_of_not_leb (x : float) :
  is_nan x = false -> (x <=? 0) = false -> (0 <? x) = true.
Proof.
  rewrite FloatFacts.is_nan_spec, FloatAxioms.leb_spec, FloatAxioms.ltb_spec.
  change (Prim2SF 0) with (S754_zero false).
  destruct (Prim2SF x) as [s|[]| |[] m e]; cbn; congruence.
Qed.

Lemma nonneg_of_not_ltb (x : float) :
  is_nan x = false -> (x <? 0) = false -> (0 <=? x) = true.
Proof.
  rewrite FloatFacts.is_nan_spec, FloatAxioms.leb_spec, FloatAxioms.ltb_spec.
  change (Prim2SF 0) with (S754_zero false).
  destruct (Prim2SF x) as [s|[]| |[] m e]; cbn; congruence.
Qed.

Lemma positive_field (input : option string) :
  not_positive (parseNumber input) = false ->
  exists a, parseNumber input = Some a /\ (0 <? a) = true.
Proof.
  unfold not_positive.
  destruct (parseNumber input) as [a|] eqn:E; [|intros [=]].
  cbn [is_null ToNumber orb]. intros H. exists a. split; [reflexivity|].
  exact (positive_of_not_leb a (parseNumber_not_nan input a E) H).
Qed.

Lemma nonneg_field (input : option string) :
  not_nonneg (parseNumber input) = false ->
  exists r, parseNumber input = Some r /\ (0 <=? r) = true.
Proof.
  unfold not_nonneg.
  destruct (parseNumber input) as [r|] eqn:E; [|intros [=]].
  cbn [is_null ToNumber orb]. intros H. exists r. split; [reflexivity|].
  exact (nonneg_of_not_ltb r (parseNumber_not_nan input r E) H).
Qed.

(** What passing every check says of the parsed fields. *)
Lemma checks_pass_fields (p : Page) :
  first_failure (checks p) = None ->
  In (cropSelect p) ["tur"; "maize"; "gram"]%string /\
  (exists a, area_field p = Some a /\ (0 <? a) = true) /\
  Forall (fun v => exists r, v = Some r /\ (0 <=? r) = true) (rain_fields p) /\
  (exists f, fert_field p = Some f /\ (0 <=? f) = true) /\
  (cropSelect p = "maize"%string -> mgmt p <> ""%string).
Proof.
  unfold checks, check_crop_selected, area_field, rain_fields, fert_field.
  cbn [first_failure].
  destruct (falsy (cropSelect p)); [intros [=]|].
  destruct (String.eqb (cropSelect p) "tur") eqn:T.
  { apply String.eqb_eq in T. rewrite T. cbn [String.eqb Ascii.eqb Bool.eqb].
    unfold check_area_tur, check_rain_tur, check_fert_tur, area_tm, rain_tm,
      fert_tm. cbn [first_failure].
    destruct (not_positive _) eqn:A; [intros [=]|].
    destruct (not_nonneg (parseNumber (tmRainfall p))) eqn:R; [intros [=]|].
    destruct (not_nonneg (parseNumber (tmFert p))) eqn:F; [intros [=]|].
    intros _. split; [cbn; auto|]. split; [exact (positive_field _ A)|].
    split; [repeat constructor; exact (nonneg_field _ R)|].
    split; [exact (nonneg_field _ F) | intros [=]]. }
  destruct (String.eqb (cropSelect p) "maize") eqn:M.
  { apply String.eqb_eq in M. rewrite M. cbn [String.eqb Ascii.eqb Bool.eqb].
    unfold check_area_maize, check_rain_maize, check_fert_maize,
      check_management, area_tm, rain_tm, fert_tm. cbn [first_failure].
    destruct (not_positive _) eqn:A; [intros [=]|].
    destruct (not_nonneg (parseNumber (tmRainfall p))) eqn:R; [intros [=]|].
    destruct (not_nonneg (parseNumber (tmFert p))) eqn:F; [intros [=]|].
    destruct (falsy (mgmt p)) eqn:G; [intros [=]|].
    intros _. split; [cbn; auto|]. split; [exact (positive_field _ A)|].
    split; [repeat constructor; exact (nonneg_field _ R)|].
    split; [exact (nonneg_field _ F)|].
    intros _. apply String.eqb_neq. exact G. }
  destruct (String.eqb (cropSelect p) "gram") eqn:G.
  { apply String.eqb_eq in G. rewrite G.
    unfold check_rain_gram, check_area_gram, check_fert_gram, rain_sep,
      rain_oct, rain_nov, area_g, fert_g. cbn [first_failure].
    destruct (not_nonneg (parseNumber (gRainSep p))) eqn:R1; [intros [=]|].
    destruct (not_nonneg (parseNumber (gRainOct p))) eqn:R2; [intros [=]|].
    destruct (not_nonneg (parseNumber (gRainNov p))) eqn:R3; [intros [=]|].
    cbn [orb].
    destruct (not_positive _) eqn:A; [intros [=]|].
    destruct (not_nonneg (parseNumber (gFert p))) eqn:F; [intros [=]|].
    intros _. split; [cbn; auto|]. split; [exact (positive_field _ A)|].
    split; [repeat constructor;
            [exact (nonneg_field _ R1) | exact (nonneg_field _ R2)
             | exact (nonneg_field _ R3)]|].
    split; [exact (nonneg_field _ F) | intros [=]]. }
  cbn. intros [=].
Qed.

(** X8: whenever [predict] completes without showing an error, the crop is
    one of the three with a formula, every field of that crop was parsed to
    a number (the area greater than 0, each rainfall field and the fertilizer
    at least 0, and for Maize a management option is selected), and the
    result written is the formula evaluated on exactly those numbers, clamped
    and rounded: a result is never computed from an absent or unparsable
    field taken for 0. *)
Theorem validated_fields_are_numbers (p p' : Page) :
  predict p = Normal tt p' ->
  error_text p' = ""%string ->
  In (cropSelect p) ["tur"; "maize"; "gram"]%string /\
  (cropSelect p = "tur"%string ->
   exists a r f : float,
     parseNumber (tmArea p) = Some a /\ parseNumber (tmRainfall p) = Some r /\
     parseNumber (tmFert p) = Some f /\
     (0 <? a) = true /\ (0 <=? r) = true /\ (0 <=? f) = true /\
     resultInput p'
     = Some (format (round2 (clamp (tur_formula a r f))) " (Tur)")) /\
  (cropSelect p = "maize"%string ->
   exists (a r f : float) (m : string),
     parseNumber (tmArea p) = Some a /\ parseNumber (tmRainfall p) = Some r /\
     parseNumber (tmFert p) = Some f /\
     managementSelect p = Some m /\ m <> ""%string /\
     (0 <? a) = true /\ (0 <=? r) = true /\ (0 <=? f) = true /\
     resultInput p'
     = Some (format (round2 (clamp (baseMaize a r f * fst (management m))))
                    (snd (management m)))) /\
  (cropSelect p = "gram"%string ->
   exists s o n a f : float,
     parseNumber (gRainSep p) = Some s /\ parseNumber (gRainOct p) = Some o /\
     parseNumber (gRainNov p) = Some n /\
     parseNumber (gArea p) = Some a /\ parseNumber (gFert p) = Some f /\
     (0 <=? s) = true /\ (0 <=? o) = true /\ (0 <=? n) = true /\
     (0 <? a) = true /\ (0 <=? f) = true /\
     resultInput p'
     = Some (format (round2 (clamp (gram_formula a s o n f))) " (Gram)")).
Proof.
  intros H T. destruct (predict_normal p p' H) as [R ->].
  assert (F : first_failure (checks p) = None).
  { revert T. unfold final_page.
    destruct (first_failure (checks p)) as [msg|] eqn:F; [|reflexivity].
    cbn. intros ->. exfalso.
    exact (messages_nonempty p _ (first_failure_In _ _ F) eq_refl). }
  destruct (checks_pass_fields p F) as (C & A & Rn & Fe & M).
  split; [exact C|].
  unfold final_page. rewrite F.
  unfold shown_value, yield_at_break, label_at_break.
  unfold area_field, rain_fields, fert_field in A, Rn, Fe.
  split; [|split].
  - intros E. rewrite E in A, Rn, Fe |- *.
    cbn [String.eqb Ascii.eqb Bool.eqb] in A, Rn, Fe |- *.
    destruct A as (a & Ha & Pa). destruct Fe as (f & Hf & Pf).
    inversion Rn as [|? ? (r & Hr & Pr) _]; subst.
    unfold area_tm, rain_tm, fert_tm in *.
    exists a, r, f. rewrite Ha, Hr, Hf. repeat split; assumption.
  - intros E. rewrite E in A, Rn, Fe |- *.
    cbn [String.eqb Ascii.eqb Bool.eqb] in A, Rn, Fe |- *.
    destruct A as (a & Ha & Pa). destruct Fe as (f & Hf & Pf).
    inversion Rn as [|? ? (r & Hr & Pr) _]; subst.
    unfold area_tm, rain_tm, fert_tm in *.
    destruct R as (_ & _ & Rm). specialize (Rm E). specialize (M E).
    unfold mgmt in *.
    destruct (managementSelect p) as [m|]; [|congruence].
    exists a, r, f, m. cbn [value_or_empty] in M |- *.
    rewrite Ha, Hr, Hf. repeat split; assumption.
  - intros E. rewrite E in A, Rn, Fe |- *.
    cbn [String.eqb Ascii.eqb Bool.eqb] in A, Rn, Fe |- *.
    destruct A as (a & Ha & Pa). destruct Fe as (f & Hf & Pf).
    inversion Rn as [|? ? (s & Hs & Ps) Rn']; subst.
    inversion Rn' as [|? ? (o & Ho & Po) Rn'']; subst.
    inversion Rn'' as [|? ? (n & Hn & Pn) _]; subst.
    unfold area_g, rain_sep, rain_oct, rain_nov, fert_g in *.
    exists s, o, n, a, f. rewrite Ha, Hs, Ho, Hn, Hf. repeat split; assumption.
Qed.

Lemma validated_fields_are_numbers_witness :
  In (cropSelect tur_example) ["tur"; "maize"; "gram"]%string /\
  (cropSelect tur_example = "tur"%string ->
   exists a r f : float,
     parseNumber (tmArea tur_example) = Some a /\
     parseNumber (tmRainfall tur_example) = Some r /\
     parseNumber (tmFert tur_example) = Some f /\
     (0 <? a) = true /\ (0 <=? r) = true /\ (0 <=? f) = true /\
     resultInput (result_page tur_example "7.12 quintals (approx.) (Tur)")
     = Some (format (round2 (clamp (tur_formula a r f))) " (Tur)")) /\
  (cropSelect tur_example = "maize"%string ->
   exists (a r f : float) (m : string),
     parseNumber (tmArea tur_example) = Some a /\
     parseNumber (tmRainfall tur_example) = Some r /\
     parseNumber (tmFert tur_example) = Some f /\
     managementSelect tur_example = Some m /\ m <> ""%string /\
     (0 <? a) = true /\ (0 <=? r) = true /\ (0 <=? f) = true /\
     resultInput (result_page tur_example "7.12 quintals (approx.) (Tur)")
     = Some (format (round2 (clamp (baseMaize a r f * fst (management m))))
                    (snd (management m)))) /\
  (cropSelect tur_example = "gram"%string ->
   exists s o n a f : float,
     parseNumber (gRainSep tur_example) = Some s /\
     parseNumber (gRainOct tur_example) = Some o /\
     parseNumber (gRainNov tur_example) = Some n /\
     parseNumber (gArea tur_example) = Some a /\
     parseNumber (gFert tur_example) = Some f /\
     (0 <=? s) = true /\ (0 <=? o) = true /\ (0 <=? n) = true /\
     (0 <? a) = true /\ (0 <=? f) = true /\
     resultInput (result_page tur_example "7.12 quintals (approx.) (Tur)")
     = Some (format (round2 (clamp (gram_formula a s o n f))) " (Gram)")).
Proof.
  apply (validated_fields_are_numbers tur_example).
  - vm_compute. reflexivity.
  - reflexivity.
Defined.

Lemma first_failure_nth (cs : list check) : forall (i : nat) (c : check),
  NoDup (map snd cs) ->
  first_failure cs = Some (snd c) ->
  nth_error cs i = Some c ->
  fst c = true /\
  forall (j : nat) (c' : check),
    (j < i)%nat -> nth_error cs j = Some c' -> fst c' = false.
Proof.
  induction cs as [|[failed m] cs IH]; intros i c N F E.
  - destruct i; discriminate E.
  - cbn in N. inversion N as [|? ? Hnot N']; subst.
    cbn in F. destruct i as [|i]; cbn in E.
    + injection E as <-. cbn in F |- *. destruct failed.
      * split; [reflexivity|]. intros j c' Hj. lia.
      * apply first_failure_In in F. contradiction.
    + destruct failed.
      * injection F as F. exfalso. apply Hnot. rewrite F.
        apply in_map. exact (nth_error_In _ _ E).
      * destruct (IH i c N' F E) as [H1 H2]. split; [exact H1|].
        intros [|j] c' Hj Ej; cbn in Ej.
        -- injection Ej as <-. reflexivity.
        -- apply (H2 j c'); [lia | exact Ej].
Qed.

Lemma messages_distinct (p : Page) : NoDup (map snd (checks p)).
Proof.
  unfold checks.
  destruct (String.eqb (cropSelect p) "tur");
    [|destruct (String.eqb (cropSelect p) "maize");
      [|destruct (String.eqb (cropSelect p) "gram")]];
    cbn; repeat constructor; cbn; intuition discriminate.
Qed.

(** X9: the message shown tells which check failed. When a completed run of
    [predict] shows the message of one of the checks of the page, that check
    fails on the page and every check before it passes; so for instance the
    fertilizer message means that area and rainfall are valid. *)
Theorem message_identifies_failed_check (p p' : Page) (i : nat) (c : check) :
  predict p = Normal tt p' ->
  nth_error (checks p) i = Some c ->
  error_text p' = snd c ->
  fst c = true /\
  forall (j : nat) (c' : check),
    (j < i)%nat -> nth_error (checks p) j = Some c' -> fst c' = false.
Proof.
  intros H E T. destruct (predict_normal p p' H) as [_ ->].
  apply (first_failure_nth (checks p) i c (messages_distinct p)); [|exact E].
  revert T. unfold final_page.
  destruct (first_failure (checks p)) as [msg|]; cbn.
  - intros ->. reflexivity.
  - intros T. exfalso.
    apply (messages_nonempty p (snd c)); [|symmetry; exact T].
    apply in_map. exact (nth_error_In _ _ E).
Qed.

Lemma message_identifies_failed_check_witness :
  fst (check_fert_tur (tur_page "1" "500" "")) = true /\
  forall (j : nat) (c' : check),
    (j < 3)%nat -> nth_error (checks (tur_page "1" "500" "")) j = Some c' ->
    fst c' = false.
Proof.
  apply (message_identifies_failed_check
           (tur_page "1" "500" "")
           (error_page (tur_page "1" "500" "") "Enter fertilizers (kg) for Tur.")).
  - vm_compute. reflexivity.
  - reflexivity.
  - reflexivity.
Defined.

(** X10: a negative estimate is shown as zero: when validation passes and
    the formula gives a value below 0, the result field reads
    "0 quintals (approx.)" followed by the label. *)
Theorem negative_estimate_shows_zero (p p' : Page) :
  predict p = Normal tt p' ->
  first_failure (checks p) = None ->
  (yield_at_break p <? 0) = true ->
  result_text p' = ("0 quintals (approx.)" ++ label_at_break p)%string /\
  error_text p' = ""%string.
Proof.
  intros H F N. destruct (predict_normal p p' H) as [_ ->].
  unfold final_page. rewrite F. unfold shown_value, clamp. rewrite N.
  split; reflexivity.
Qed.

Lemma negative_estimate_shows_zero_witness :
  result_text (result_page (tur_page "0.5" "0" "0") "0 quintals (approx.) (Tur)")
  = ("0 quintals (approx.)" ++ label_at_break (tur_page "0.5" "0" "0"))%string /\
  error_text (result_page (tur_page "0.5" "0" "0") "0 quintals (approx.) (Tur)")
  = ""%string.
Proof.
  apply (negative_estimate_shows_zero (tur_page "0.5" "0" "0")).
  - vm_compute. reflexivity.
  - vm_compute. reflexivity.
  - vm_compute. reflexivity.
Defined.

(** ** 23. How leniently a field is parsed *)

Lemma trim_start_white_space (ws s : string) :
  all_white_space ws = true ->
  ParseFloat.trim_start (ws ++ s) = ParseFloat.trim_start s.
Proof.
  induction ws as [|c ws IH]; cbn; [reflexivity|].
  intros H. apply andb_true_iff in H. destruct H as [Hc Hw].
  rewrite Hc. exact (IH Hw).
Qed.

(** X11: leading white space is ignored: a field parses to the same value,
    or to the same invalid marker, with any run of white space put before
    its text. *)
Theorem parseNumber_ignores_leading_white_space (ws s : string) :
  all_white_space ws = true ->
  parseNumber (Some (ws ++ s)%string) = parseNumber (Some s).
Proof.
  intros H. unfold parseNumber, ParseFloat.parseFloat. cbn [value_or_empty].
  rewrite (trim_start_white_space ws s H). reflexivity.
Qed.

Lemma parseNumber_ignores_leading_white_space_witness :
  parseNumber (Some ("   " ++ "12.5")%string) = parseNumber (Some "12.5"%string).
Proof.
  apply (parseNumber_ignores_leading_white_space "   " "12.5").
  vm_compute. reflexivity.
Defined.

Lemma append_empty_r (s : string) : (s ++ "")%string = s.
Proof.
  induction s as [|c s IH]; cbn; [reflexivity | rewrite IH; reflexivity].
Qed.

Lemma digits_app (ds t : string) :
  all_digits ds = true -> ends_number t = true ->
  ParseFloat.digits (ds ++ t) = (fst (ParseFloat.digits ds), t) /\
  snd (ParseFloat.digits ds) = ""%string.
Proof.
  intros D T. induction ds as [|c ds IH].
  - cbn. split; [|reflexivity].
    destruct t as [|c t]; [reflexivity|]. cbn in T |- *.
    destruct (ParseFloat.digit_of c); [discriminate T | reflexivity].
  - cbn in D |- *. destruct (ParseFloat.digit_of c); [|discriminate D].
    destruct (IH D) as [I1 I2]. rewrite I1.
    destruct (ParseFloat.digits ds) as [dl r]. cbn in I2 |- *. auto.
Qed.

Lemma exponent_part_ends (t : string) :
  ends_number t = true -> ParseFloat.exponent_part t = 0%Z.
Proof.
  destruct t as [|c t]; [reflexivity|]. cbn.
  destruct (ParseFloat.digit_of c); [intros [=]|].
  intros H. apply negb_true_iff in H.
  apply orb_false_iff in H. destruct H as [H He'].
  apply orb_false_iff in H. destruct H as [_ He].
  rewrite He, He'. reflexivity.
Qed.

Lemma unsigned_literal_digits (c : ascii) (ds t : string) (d : Z) :
  ParseFloat.digit_of c = Some d ->
  all_digits ds = true -> ends_number t = true ->
  ParseFloat.unsigned_literal (String c ds ++ t)
  = Some (ParseFloat.LitDecimal
            (ParseFloat.digits_value (d :: fst (ParseFloat.digits ds))) 0).
Proof.
  intros Dc D T.
  assert (P : prefix "Infinity" (String c ds ++ t) = false).
  { destruct c as [[] [] [] [] [] [] [] []]; try discriminate Dc; reflexivity. }
  unfold ParseFloat.unsigned_literal. rewrite P.
  cbn [append ParseFloat.digits]. rewrite Dc.
  destruct (digits_app ds t D T) as [I1 _]. rewrite I1.
  rewrite (exponent_part_ends t T).
  destruct t as [|c' t']; [reflexivity|].
  cbn in T. destruct (ParseFloat.digit_of c') eqn:Dc'; [discriminate T|].
  apply negb_true_iff in T.
  apply orb_false_iff in T. destruct T as [T _].
  apply orb_false_iff in T. destruct T as [T _].
  destruct c' as [[] [] [] [] [] [] [] []]; try discriminate T; reflexivity.
Qed.

(** X12: text after an integer is ignored: a non-empty string of digits
    followed by anything that cannot continue the number (a unit, a space, a
    comma, a second sign) parses to the same number as the digits alone, so
    "12 kg" is accepted as 12. *)
Theorem parseNumber_ignores_trailing_text (ds t : string) :
  ds <> ""%string ->
  all_digits ds = true ->
  ends_number t = true ->
  parseNumber (Some (ds ++ t)%string) = parseNumber (Some ds) /\
  parseNumber (Some ds) <> None.
Proof.
  intros N D T. destruct ds as [|c ds]; [congruence|]. clear N.
  cbn in D. destruct (ParseFloat.digit_of c) as [d|] eqn:Dc; [|discriminate D].
  assert (W : ParseFloat.is_white_space c = false
              /\ forall r, ParseFloat.sign (String c r) = (false, String c r)).
  { destruct c as [[] [] [] [] [] [] [] []]; try discriminate Dc;
      split; reflexivity. }
  destruct W as [W S].
  pose proof (unsigned_literal_digits c ds t d Dc D T) as U.
  pose proof (unsigned_literal_digits c ds "" d Dc D eq_refl) as U0.
  rewrite append_empty_r in U0.
  unfold parseNumber, ParseFloat.parseFloat, Number.isNaN. cbn [value_or_empty].
  cbn [append ParseFloat.trim_start]. rewrite W, !S.
  cbn [append] in U. rewrite U, U0. split; [reflexivity|].
  cbn [ParseFloat.literal_value]. rewrite of_decimal_not_nan. discriminate.
Qed.

Lemma parseNumber_ignores_trailing_text_witness :
  parseNumber (Some ("12" ++ " kg")%string) = parseNumber (Some "12"%string) /\
  parseNumber (Some "12"%string) <> None.
Proof.
  apply (parseNumber_ignores_trailing_text "12" " kg").
  - discriminate.
  - vm_compute. reflexivity.
  - vm_compute. reflexivity.
Defined.

Lemma literal_value_nonneg (l : ParseFloat.literal) :
  nonneg (ParseFloat.literal_value l).
Proof.
  destruct l as [|m e]; [reflexivity|].
  cbn. unfold Number.of_decimal, Number.of_ratio.
  destruct (m =? 0)%Z; [reflexivity|].
  destruct (0 <=? e)%Z;
    (destruct (_ =? 0)%Z; [reflexivity|];
     destruct (_ || _); [reflexivity | apply FloatFacts.nonneg_scale2]).
Qed.

Lemma opp_nonneg (v : float) :
  nonneg v ->
  is_nan (- v) = false /\ (- v <=? 0) = true /\
  ((- v <? 0) = false -> (- v =? 0) = true).
Proof.
  unfold nonneg.
  rewrite FloatFacts.leb_zero, FloatFacts.is_nan_spec, FloatAxioms.leb_spec,
    FloatAxioms.ltb_spec, FloatAxioms.eqb_spec, FloatAxioms.opp_spec.
  change (Prim2SF 0) with (S754_zero false).
  destruct (Prim2SF v) as [s|[]| |[] m e]; cbn; auto; congruence.
Qed.

(** X13: a minus sign never passes as an area, and passes as rainfall or
    fertilizer only on a zero: text that starts with "-" fails the
    positive-area check whatever follows, and fails the non-negative check
    unless the number it denotes is zero (as "-0" does). *)
Theorem minus_sign_is_rejected (s : string) :
  not_positive (parseNumber (Some ("-" ++ s)%string)) = true /\
  (not_nonneg (parseNumber (Some ("-" ++ s)%string)) = false ->
   is_zero_value (parseNumber (Some ("-" ++ s)%string)) = true).
Proof.
  unfold parseNumber, ParseFloat.parseFloat, Number.isNaN.
  cbn [value_or_empty append ParseFloat.trim_start ParseFloat.sign].
  change (ParseFloat.is_white_space "-") with false. cbn iota.
  cbn [ParseFloat.sign].
  destruct (ParseFloat.unsigned_literal s) as [l|].
  - destruct (opp_nonneg _ (literal_value_nonneg l)) as (N & L & Z).
    rewrite N. unfold not_positive, not_nonneg.
    cbn [is_null ToNumber orb is_zero_value]. auto.
  - change (is_nan nan) with true. cbn. split; [reflexivity | intros [=]].
Qed.

Lemma minus_sign_is_rejected_witness :
  not_positive (parseNumber (Some ("-" ++ "0")%string)) = true /\
  is_zero_value (parseNumber (Some ("-" ++ "0")%string)) = true.
Proof.
  destruct (minus_sign_is_rejected "0") as [H1 H2].
  split; [exact H1|]. apply H2. vm_compute. reflexivity.
Defined.

(** ** 24. The [change] listener of the crop select *)

Lemma onCropChange_run (p : Page) (s : Sections) (e : ErrorElement) (r : string)
      (d1 d2 d3 : string) :
  errorMsg p = Some e -> resultInput p = Some r ->
  turMaizeInputs s = Some d1 -> maizeManagement s = Some d2 ->
  gramInputs s = Some d3 ->
  onCropChange p s
  = Done (cleared p)
         (mkSections
            (Some (if String.eqb (cropSelect p) "tur"
                      || String.eqb (cropSelect p) "maize"
                   then "block" else "none")%string)
            (Some (if String.eqb (cropSelect p) "maize"
                   then "block" else "none")%string)
            (Some (if String.eqb (cropSelect p) "gram"
                   then "block" else "none")%string)).
Proof.
  destruct p as [crop e0 r0 a rn f m s1 o n ga gf], s as [t mm g]. cbn.
  intros -> -> -> -> ->.
  unfold onCropChange. cbn.
  destruct (String.eqb crop "tur"), (String.eqb crop "maize"),
    (String.eqb crop "gram"); reflexivity.
Qed.

Lemma onCropChange_throws (p : Page) (s : Sections) :
  errorMsg p = None \/ resultInput p = None \/ turMaizeInputs s = None \/
  maizeManagement s = None \/ gramInputs s = None ->
  onCropChange p s = Thrown.
Proof.
  destruct p as [crop [e|] [r|] a rn f m s1 o n ga gf], s as [[t|] [mm|] [g|]];
    cbn; intros [H|[H|[H|[H|H]]]]; try discriminate H; try reflexivity;
    unfold onCropChange; cbn;
    destruct (String.eqb crop "tur"), (String.eqb crop "maize"),
      (String.eqb crop "gram"); reflexivity.
Qed.

Lemma onCropChange_done (p p' : Page) (s s' : Sections) :
  onCropChange p s = Done p' s' ->
  p' = cleared p /\
  s' = mkSections
         (Some (if String.eqb (cropSelect p) "tur"
                   || String.eqb (cropSelect p) "maize"
                then "block" else "none")%string)
         (Some (if String.eqb (cropSelect p) "maize"
                then "block" else "none")%string)
         (Some (if String.eqb (cropSelect p) "gram"
                then "block" else "none")%string) /\
  errorMsg p <> None /\ resultInput p <> None.
Proof.
  intros H.
  destruct (errorMsg p) as [e|] eqn:E;
    [|rewrite onCropChange_throws in H by auto; discriminate H].
  destruct (resultInput p) as [r|] eqn:R;
    [|rewrite onCropChange_throws in H by auto; discriminate H].
  destruct (turMaizeInputs s) as [d1|] eqn:D1;
    [|rewrite onCropChange_throws in H by auto; discriminate H].
  destruct (maizeManagement s) as [d2|] eqn:D2;
    [|rewrite onCropChange_throws in H by auto; discriminate H].
  destruct (gramInputs s) as [d3|] eqn:D3;
    [|rewrite onCropChange_throws in H by auto 6; discriminate H].
  rewrite (onCropChange_run p s e r d1 d2 d3 E R D1 D2 D3) in H.
  injection H as <- <-. repeat split; discriminate.
Qed.

(** X14: after the crop is changed, exactly the sections of the selected
    crop are visible: the shared Tur/Maize section for "tur" and "maize", the
    management section for "maize" alone, the Gram section for "gram" alone,
    and none of them for any other value, every other section being set to
    "none". Hence the Gram section and the Tur/Maize section are never
    visible together, and the management section is visible only together
    with the Tur/Maize section. *)
Theorem crop_change_shows_crop_sections (p p' : Page) (s s' : Sections) :
  onCropChange p s = Done p' s' ->
  visible (turMaizeInputs s')
  = (String.eqb (cropSelect p) "tur" || String.eqb (cropSelect p) "maize") /\
  visible (maizeManagement s') = String.eqb (cropSelect p) "maize" /\
  visible (gramInputs s') = String.eqb (cropSelect p) "gram" /\
  (visible (turMaizeInputs s') && visible (gramInputs s') = false) /\
  (visible (maizeManagement s') = true -> visible (turMaizeInputs s') = true) /\
  (forall d, In d [turMaizeInputs s'; maizeManagement s'; gramInputs s'] ->
             d = Some "block"%string \/ d = Some "none"%string).
Proof.
  intros H. destruct (onCropChange_done p p' s s' H) as (_ & -> & _).
  cbn [turMaizeInputs maizeManagement gramInputs].
  destruct (String.eqb (cropSelect p) "tur") eqn:T,
           (String.eqb (cropSelect p) "maize") eqn:M,
           (String.eqb (cropSelect p) "gram") eqn:G;
    try (apply String.eqb_eq in T); try (apply String.eqb_eq in M);
    try (apply String.eqb_eq in G); try congruence;
    cbn; repeat split; try reflexivity; try discriminate;
    intros d [<-|[<-|[<-|[]]]]; auto.
Qed.

Lemma crop_change_shows_crop_sections_witness :
  visible (turMaizeInputs (mkSections (Some "block") (Some "block") (Some "none")))
  = (String.eqb (cropSelect (maize_example "good")) "tur"
     || String.eqb (cropSelect (maize_example "good")) "maize") /\
  visible (maizeManagement (mkSections (Some "block") (Some "block") (Some "none")))
  = String.eqb (cropSelect (maize_example "good")) "maize" /\
  visible (gramInputs (mkSections (Some "block") (Some "block") (Some "none")))
  = String.eqb (cropSelect (maize_example "good")) "gram" /\
  (visible (turMaizeInputs (mkSections (Some "block") (Some "block") (Some "none")))
   && visible (gramInputs (mkSections (Some "block") (Some "block") (Some "none")))
   = false) /\
  (visible (maizeManagement (mkSections (Some "block") (Some "block") (Some "none")))
   = true ->
   visible (turMaizeInputs (mkSections (Some "block") (Some "block") (Some "none")))
   = true) /\
  (forall d,
     In d [turMaizeInputs (mkSections (Some "block") (Some "block") (Some "none"));
           maizeManagement (mkSections (Some "block") (Some "block") (Some "none"));
           gramInputs (mkSections (Some "block") (Some "block") (Some "none"))] ->
     d = Some "block"%string \/ d = Some "none"%string).
Proof.
  apply (crop_change_shows_crop_sections
           (maize_example "good") (cleared (maize_example "good"))
           (mkSections (Some "none") (Some "none") (Some "block"))).
  vm_compute. reflexivity.
Defined.

(** X15: the listener throws exactly when one of the five elements it
    writes to is missing: the error element, the result element or any of the
    three sections, whichever crop is selected (all three sections are hidden
    first). It needs none of the input elements. *)
Theorem crop_change_throws_iff (p : Page) (s : Sections) :
  onCropChange p s = Thrown <->
  (errorMsg p = None \/ resultInput p = None \/ turMaizeInputs s = None \/
   maizeManagement s = None \/ gramInputs s = None).
Proof.
  split; [|apply onCropChange_throws].
  intros H.
  destruct (errorMsg p) as [e|] eqn:E; [|auto].
  destruct (resultInput p) as [r|] eqn:R; [|auto].
  destruct (turMaizeInputs s) as [d1|] eqn:D1; [|auto].
  destruct (maizeManagement s) as [d2|] eqn:D2; [|auto].
  destruct (gramInputs s) as [d3|] eqn:D3; [|auto 6].
  rewrite (onCropChange_run p s e r d1 d2 d3 E R D1 D2 D3) in H.
  discriminate H.
Qed.

Lemma predict_cleared (p : Page) :
  errorMsg p <> None -> resultInput p <> None ->
  predict (cleared p) = predict p.
Proof.
  intros E R.
  assert (S : same_inputs p (cleared p)) by (repeat split; reflexivity).
  destruct (ready_or_not p) as [Rp|T].
  - assert (Rc : ready (cleared p)).
    { destruct Rp as (_ & _ & Rm). repeat split; try discriminate. exact Rm. }
    rewrite (predict_run_ready p Rp), (predict_run_ready _ Rc).
    rewrite (final_page_same_inputs p (cleared p) S). reflexivity.
  - destruct T as [T|[T|[Tc Tm]]]; try contradiction.
    rewrite (predict_throws p), (predict_throws (cleared p)); auto.
Qed.

(** X16: changing the crop discards what was shown and nothing else: the
    error element is hidden and emptied, the result field is emptied, the
    crop, the management selection and every input keep their values (text
    typed for Tur is still there for Maize), and [predict] then does what it
    would have done before the change. *)
Theorem crop_change_discards_output (p p' : Page) (s s' : Sections) :
  onCropChange p s = Done p' s' ->
  errorMsg p' = Some (mkError "" "none") /\
  resultInput p' = Some ""%string /\
  same_inputs p p' /\
  predict p' = predict p.
Proof.
  intros H. destruct (onCropChange_done p p' s s' H) as (-> & _ & E & R).
  assert (S : same_inputs p (cleared p)) by (repeat split; reflexivity).
  split; [reflexivity|]. split; [reflexivity|]. split; [exact S|].
  exact (predict_cleared p E R).
Qed.

Lemma crop_change_discards_output_witness :
  errorMsg (cleared (error_page gram_blank "old")) = Some (mkError "" "none") /\
  resultInput (cleared (error_page gram_blank "old")) = Some ""%string /\
  same_inputs (error_page gram_blank "old") (cleared (error_page gram_blank "old")) /\
  predict (cleared (error_page gram_blank "old"))
  = predict (error_page gram_blank "old").
Proof.
  apply (crop_change_discards_output
           (error_page gram_blank "old") (cleared (error_page gram_blank "old"))
           (mkSections (Some "block") (Some "none") (Some "none"))
           (mkSections (Some "none") (Some "none") (Some "block"))).
  vm_compute. reflexivity.
Defined.

(** ** 25. The two messages about the crop *)

Lemma error_text_final (p : Page) :
  error_text (final_page p)
  = match first_failure (checks p) with
    | Some msg => msg
    | None => ""%string
    end.
Proof.
  unfold final_page. destruct (first_failure (checks p)); reflexivity.
Qed.

(** X17: the two messages about the crop are shown exactly when they apply:
    "Please select a crop." if and only if the crop value is empty, and
    "No formula defined for this crop." if and only if it is non-empty and
    none of "tur", "maize" and "gram" (the comparison is exact, so "Tur" has
    no formula). *)
Theorem crop_messages_iff (p p' : Page) :
  predict p = Normal tt p' ->
  (error_text p' = "Please select a crop."%string <->
   cropSelect p = ""%string) /\
  (error_text p' = "No formula defined for this crop."%string <->
   (cropSelect p <> ""%string /\ cropSelect p <> "tur"%string /\
    cropSelect p <> "maize"%string /\ cropSelect p <> "gram"%string)).
Proof.
  intros H. destruct (predict_normal p p' H) as [_ ->].
  rewrite error_text_final.
  unfold checks, check_crop_selected, falsy. cbn [first_failure].
  destruct (String.eqb (cropSelect p) "") eqn:E.
  { apply String.eqb_eq in E. rewrite E. cbn.
    split; split; try reflexivity; try discriminate; intuition congruence. }
  apply String.eqb_neq in E.
  destruct (String.eqb (cropSelect p) "tur") eqn:T.
  { apply String.eqb_eq in T.
    unfold check_area_tur, check_rain_tur, check_fert_tur. cbn [first_failure].
    destruct (not_positive _), (not_nonneg (rain_tm p)), (not_nonneg (fert_tm p));
      split; split; try discriminate; intuition congruence. }
  apply String.eqb_neq in T.
  destruct (String.eqb (cropSelect p) "maize") eqn:M.
  { apply String.eqb_eq in M.
    unfold check_area_maize, check_rain_maize, check_fert_maize,
      check_management. cbn [first_failure].
    destruct (not_positive _), (not_nonneg (rain_tm p)),
      (not_nonneg (fert_tm p)), (falsy (mgmt p));
      split; split; try discriminate; intuition congruence. }
  apply String.eqb_neq in M.
  destruct (String.eqb (cropSelect p) "gram") eqn:G.
  { apply String.eqb_eq in G.
    unfold check_rain_gram, check_area_gram, check_fert_gram.
    cbn [first_failure].
    destruct (_ || _), (not_positive (area_g p)), (not_nonneg (fert_g p));
      split; split; try discriminate; intuition congruence. }
  apply String.eqb_neq in G. cbn.
  split; split; try discriminate; intuition congruence.
Qed.

Lemma crop_messages_iff_witness :
  (error_text (error_page (page "Tur" "" "1" "2" "3" "" "" "" "" "")
                          "No formula defined for this crop.")
   = "Please select a crop."%string <->
   cropSelect (page "Tur" "" "1" "2" "3" "" "" "" "" "") = ""%string) /\
  (error_text (error_page (page "Tur" "" "1" "2" "3" "" "" "" "" "")
                          "No formula defined for this crop.")
   = "No formula defined for this crop."%string <->
   (cropSelect (page "Tur" "" "1" "2" "3" "" "" "" "" "") <> ""%string /\
    cropSelect (page "Tur" "" "1" "2" "3" "" "" "" "" "") <> "tur"%string /\
    cropSelect (page "Tur" "" "1" "2" "3" "" "" "" "" "") <> "maize"%string /\
    cropSelect (page "Tur" "" "1" "2" "3" "" "" "" "" "") <> "gram"%string)).
Proof.
  apply (crop_messages_iff (page "Tur" "" "1" "2" "3" "" "" "" "" "")).
  vm_compute. reflexivity.
Defined.
